(** * Verification of apptainer's build-configuration generator

    Source: [internal/pkg/buildcfg/confgen/gen.go].

    The Go program has two layers:
    - the generator itself ([parseLine], [Define.WriteLine], [main]), run at
      build time on the lines of [config.h];
    - the runtime it emits through [confgenTemplate] ([getPrefix],
      [isSuidInstall], [relocatePath]), which runs inside every apptainer
      binary, with the build-time prefix substituted for [{{.Prefix}}].

    Both layers are embedded below.  Go strings are byte strings and are
    modelled as [string] (lists of 8-bit [ascii]); Go's [int] values that occur
    here are small and modelled in [Z].  The functions of Go's standard library
    that the source calls ([strings.Fields], [strings.HasPrefix],
    [strings.Contains], [filepath.Clean], [filepath.Dir], [filepath.Base],
    [filepath.Join], [filepath.Rel]) are modelled for Unix, where the path
    separator is the slash and there are no volume names.

    The operating system is an explicit argument: a record of what the calls
    of [os] answer.  The generator reads its input through [bufio.Scanner];
    the input of the model is the sequence of lines the scanner yields.  The
    package variables of the generated runtime are an explicit state, and a
    [sync.Once] is its flag; calls are taken one after the other. *)

From Stdlib Require Import String Ascii List ZArith Lia Bool Arith.
Import ListNotations.
Open Scope string_scope.

(** ** Byte-string helpers *)

Definition byte (c : ascii) : nat := nat_of_ascii c.

(** [byteIs c n]: the byte [c] has the value [n]. *)
Definition byteIs (c : ascii) (n : nat) : bool := Nat.eqb (byte c) n.

(** The double quote and the back quote, as one-character strings. *)
Definition dquote : string := String (ascii_of_nat 34) "".
Definition bquote : string := String (ascii_of_nat 96) "".

(** ** Go's [strings] package *)
Module GoStrings.

(** [strings.HasPrefix(s, prefix)]. *)
Definition HasPrefix (s prefix : string) : bool := String.prefix prefix s.

(** [strings.Contains(s, substr)]: [substr] occurs at some offset of [s]. *)
Fixpoint Contains (s substr : string) : bool :=
  HasPrefix s substr ||
  match s with
  | EmptyString => false
  | String _ r => Contains r substr
  end.

(** The six ASCII white-space bytes of [strings.asciiSpace]. *)
Definition asciiSpace (c : ascii) : bool :=
  byteIs c 9 || byteIs c 10 || byteIs c 11 || byteIs c 12 || byteIs c 13 ||
  byteIs c 32.

(** Width in bytes of the white-space rune ([unicode.IsSpace]) that starts
    [s], or [0] when [s] does not start with one.  Besides the ASCII bytes the
    white-space runes are U+0085, U+00A0, U+1680, U+2000..U+200A, U+2028,
    U+2029, U+202F, U+205F and U+3000; each is recognised by its UTF-8
    encoding, whose first byte is never a continuation byte, so matching the
    bytes in place agrees with decoding rune by rune. *)
Definition spaceWidth (s : string) : nat :=
  match s with
  | EmptyString => 0
  | String c r =>
    if asciiSpace c then 1 else
    match r with
    | String d r' =>
      if byteIs c 194 && (byteIs d 133 || byteIs d 160) then 2
      else match r' with
      | String e _ =>
        if byteIs c 225 && byteIs d 154 && byteIs e 128 then 3
        else if byteIs c 226 && byteIs d 128 &&
                ((Nat.leb 128 (byte e) && Nat.leb (byte e) 138) ||
                 byteIs e 168 || byteIs e 169 || byteIs e 175) then 3
        else if byteIs c 226 && byteIs d 129 && byteIs e 159 then 3
        else if byteIs c 227 && byteIs d 128 && byteIs e 128 then 3
        else 0
      | EmptyString => 0
      end
    | EmptyString => 0
    end
  end.

(** A finished field is emitted only when it is not empty. *)
Definition flush (cur : string) : list string :=
  match cur with
  | EmptyString => []
  | _ => [cur]
  end.

(** One left-to-right pass: [skip] counts the remaining bytes of a
    multi-byte white-space rune, [cur] is the field being collected. *)
Fixpoint fieldsFrom (s : string) (skip : nat) (cur : string) : list string :=
  match s with
  | EmptyString => flush cur
  | String c r =>
    match skip with
    | S k => fieldsFrom r k cur
    | O =>
      match spaceWidth s with
      | O => fieldsFrom r 0 (cur ++ String c "")
      | S k => flush cur ++ fieldsFrom r k ""
      end
    end
  end.

(** [strings.Fields(s)]: the maximal runs of non-white-space of [s]. *)
Definition Fields (s : string) : list string := fieldsFrom s 0 "".

(** [strings.Count(s, "/")]. *)
Fixpoint CountSlash (s : string) : nat :=
  match s with
  | EmptyString => 0
  | String c r => (if Ascii.eqb c "/" then 1 else 0) + CountSlash r
  end.

End GoStrings.

(** ** Go's [path/filepath] package on Unix *)
Module Filepath.

Definition isSep (c : ascii) : bool := Ascii.eqb c "/".

Fixpoint hasSep (s : string) : bool :=
  match s with
  | EmptyString => false
  | String c r => isSep c || hasSep r
  end.

(** The elements between separators: ["a/b"] gives ["a"; "b"], ["/a"] gives
    [""; "a"], and the empty string gives one empty element. *)
Fixpoint splitSep (s : string) : list string :=
  match s with
  | EmptyString => [""]
  | String c r =>
    if isSep c then "" :: splitSep r
    else match splitSep r with
         | e :: es => String c e :: es
         | [] => [String c ""]
         end
  end.

(** One element of [Clean]'s scan.  [out] holds the elements written so far,
    last one first.  A ".." element removes the last written element when
    there is one that is not itself a kept ".." (the [out.w > dotdot] case),
    is kept on an unrooted path, and is dropped at the root. *)
Definition cleanStep (rooted : bool) (out : list string) (e : string)
  : list string :=
  if (e =? "") || (e =? ".") then out
  else if e =? ".." then
    match out with
    | top :: rest =>
      if negb (top =? "..") then rest
      else if negb rooted then e :: out
      else out
    | [] => if negb rooted then [e] else out
    end
  else e :: out.

(** [filepath.Clean(path)]. *)
Definition Clean (path : string) : string :=
  match path with
  | EmptyString => "."
  | String c _ =>
    let rooted := isSep c in
    let out := fold_left (cleanStep rooted) (splitSep path) [] in
    let body := String.concat "/" (rev out) in
    if rooted then "/" ++ body
    else if body =? "" then "." else body
  end.

(** [path[:i+1]] where [i] is the index of the last separator. *)
Fixpoint uptoLastSep (s : string) : string :=
  match s with
  | EmptyString => ""
  | String c r => if hasSep s then String c (uptoLastSep r) else ""
  end.

(** [path[i+1:]] where [i] is the index of the last separator. *)
Fixpoint afterLastSep (s : string) : string :=
  match s with
  | EmptyString => ""
  | String c r => if hasSep s then afterLastSep r else s
  end.

Fixpoint stripTrailingSeps (s : string) : string :=
  match s with
  | EmptyString => ""
  | String c r =>
    let r' := stripTrailingSeps r in
    if isSep c && (r' =? "") then "" else String c r'
  end.

(** [filepath.Dir(path)]. *)
Definition Dir (path : string) : string := Clean (uptoLastSep path).

(** [filepath.Base(path)]. *)
Definition Base (path : string) : string :=
  match path with
  | EmptyString => "."
  | _ =>
    let p := afterLastSep (stripTrailingSeps path) in
    if p =? "" then "/" else p
  end.

(** [filepath.Join(elem...)]: leading empty elements are ignored, the rest is
    joined with slashes and cleaned. *)
Fixpoint Join (elem : list string) : string :=
  match elem with
  | [] => ""
  | e :: rest => if e =? "" then Join rest else Clean (String.concat "/" elem)
  end.

(** The first path element of [s] and what follows it (starting at the
    separator, if any). *)
Fixpoint cutElem (s : string) : string * string :=
  match s with
  | EmptyString => ("", "")
  | String c r =>
    if isSep c then ("", s)
    else let (e, t) := cutElem r in (String c e, t)
  end.

Definition dropSep (s : string) : string :=
  match s with
  | String c r => if isSep c then r else s
  | EmptyString => ""
  end.

(** The loop of [Rel], which positions [base[b0:bi]] and [targ[t0:ti]] at
    the first differing elements of the two paths.  The arguments are
    [base[b0:]] and [targ[t0:]]; the result is
    [(base[b0:bi], base[b0:], targ[t0:])].  When one path is used up, the
    element of the base is the first element of what is left of the base
    (empty when nothing is left).  Each round consumes at least one byte of
    the base, which bounds the recursion. *)
Fixpoint relLoop (fuel : nat) (b t : string) : string * string * string :=
  match fuel with
  | O => (fst (cutElem b), b, t)
  | S fuel' =>
    if (b =? "") || (t =? "") then (fst (cutElem b), b, t)
    else
      let (be, br) := cutElem b in
      let (te, tr) := cutElem t in
      if negb (te =? be) then (be, b, t)
      else relLoop fuel' (dropSep br) (dropSep tr)
  end.

Fixpoint repeatUp (n : nat) : string :=
  match n with
  | O => ""
  | S k => "/.." ++ repeatUp k
  end.

(** The text of the error [Rel] returns. *)
Definition relError (basepath targpath : string) : string :=
  "Rel: can't make " ++ targpath ++ " relative to " ++ basepath.

(** [filepath.Rel(basepath, targpath)]; [None] is the error result, whose
    text is [relError basepath targpath]. *)
Definition Rel (basepath targpath : string) : option string :=
  let base := Clean basepath in
  let targ := Clean targpath in
  if targ =? base then Some "."
  else
    let base := if base =? "." then "" else base in
    let baseSlashed := GoStrings.HasPrefix base "/" in
    let targSlashed := GoStrings.HasPrefix targ "/" in
    if negb (Bool.eqb baseSlashed targSlashed) then None
    else
      let '(be, brest, trest) := relLoop (S (String.length base)) base targ in
      if be =? ".." then None
      else if negb (brest =? "") then
        Some (".." ++ repeatUp (GoStrings.CountSlash brest) ++
              (if negb (trest =? "") then "/" ++ trest else ""))
      else Some trest.

End Filepath.

(** ** Process outcomes *)

(** Modelled from the spec: [sylog.Fatalf], of package [pkg/sylog] which is
    not among the sources, is the constructor [Fatal]: "the process
    terminates immediately with a non-zero status and a diagnostic message".
    The other two ways for a call to end are to return a value, and to panic
    in Go's runtime (an index or a slice bound out of range). *)
Inductive outcome (A : Type) : Type :=
| Returned (a : A)
| Fatal (msg : string)
| Panic (msg : string).
Arguments Returned {A} a.
Arguments Fatal {A} msg.
Arguments Panic {A} msg.

(** The exit status of a process whose [main] returns. *)
Definition statusReturn : Z := 0%Z.

(** Modelled from the spec: the status with which [sylog.Fatalf] (not among
    the sources) terminates the process is "non-zero"; the properties below
    use only that. *)
Definition statusFatal : Z := 255%Z.

(** The exit status of a Go program that panics. *)
Definition statusPanic : Z := 2%Z.

(** [s[lo:hi]] on a Go string; [None] is the slice-bounds panic. *)
Definition goSlice (s : string) (lo hi : Z) : option string :=
  if ((0 <=? lo)%Z && (lo <=? hi)%Z && (hi <=? Z.of_nat (String.length s))%Z)%bool
  then Some (String.substring (Z.to_nat lo) (Z.to_nat (hi - lo)) s)
  else None.

(** ** The generator: [gen.go] *)
Module Confgen.

(** [Define]: one line of configuration words. *)
Record Define : Type := { Words : list string }.

Definition parseLine (s : string) : Define :=
  {| Words := GoStrings.Fields s |}.

(** The loop of [WriteLine] that builds the value expression:
    [s = d.Words[2]], then [s += " + " + w] for each [w] of [d.Words[3:]]. *)
Definition valueExpr (first : string) (more : list string) : string :=
  fold_left (fun s w => s ++ " + " ++ w) more first.

(** The names of the first [case] of [WriteLine]'s switch. *)
Definition relocatableNames : list string :=
  ["BINDIR"; "LIBEXECDIR"; "SYSCONFDIR"; "SESSIONDIR"; "APPTAINER_CONFDIR";
   "PLUGIN_ROOTDIR"].

Definition isRelocatable (name : string) : bool :=
  existsb (String.eqb name) relocatableNames.

(** [Define.WriteLine]; [None] is the index-out-of-range panic of
    [d.Words[2]] and [d.Words[1]] on fewer than three words. *)
Definition WriteLine (d : Define) : option string :=
  match Words d with
  | _ :: name :: v :: more =>
    let s := valueExpr v more in
    let varType := "const" in
    let varStatement := name ++ " = " ++ s in
    let '(varType, varStatement) :=
      if isRelocatable name then
        ("var", name ++ " = relocatePath(" ++ s ++ ")")
      else if name =? "APPTAINER_SUID_INSTALL" then
        ("var", name ++ " = isSuidInstall()")
      else if GoStrings.Contains s "APPTAINER_CONFDIR" then
        ("var", varStatement)
      else (varType, varStatement) in
    Some (varType ++ " " ++ varStatement)
  | _ => None
  end.

(** [len(d.Words) > 2 && d.Words[0] == "#define"]. *)
Definition recognized (d : Define) : bool :=
  (2 <? List.length (Words d))%nat && (nth 0 (Words d) "" =? "#define").

(** [d.Words[1]] and [d.Words[2]] of a recognized entry. *)
Definition name (d : Define) : string := nth 1 (Words d) "".
Definition value (d : Define) : string := nth 2 (Words d) "".

Definition msgPrefixElements : string := "Expected PREFIX to contain 3 elements".
Definition msgPrefixMissing : string := "Failed to find value of PREFIX".

(** The scanning loop of [main], over the lines the scanner yields, with the
    loop's two variables [header] and [prefix] passed along. *)
Fixpoint scan (lines : list string) (header : list Define) (prefix : string)
  : outcome (list Define * string) :=
  match lines with
  | [] => Returned (header, prefix)
  | l :: rest =>
    let d := parseLine l in
    if recognized d then
      if name d =? "PREFIX" then
        if negb (List.length (Words d) =? 3)%nat then Fatal msgPrefixElements
        else scan rest (header ++ [d]) (value d)
      else scan rest (header ++ [d]) prefix
    else scan rest header prefix
  end.

(** [os.Getenv]: the empty string for an unset variable. *)
Definition os_Getenv (v : option string) : string :=
  match v with
  | Some s => s
  | None => ""
  end.

(** The synthetic entry built from the [GO_BUILD_TAGS] override. *)
Definition buildTagsDefine (goBuildTags : string) : Define :=
  {| Words := ["#define"; "GO_BUILD_TAGS"; bquote ++ goBuildTags ++ bquote] |}.

(** Lines 196 to 224 of [main]: the entries and the prefix token, from the
    scanned lines and the environment's [GO_BUILD_TAGS]. *)
Definition extract (lines : list string) (env : option string)
  : outcome (list Define * string) :=
  match scan lines [] "" with
  | Returned (header, prefix) =>
    if prefix =? "" then Fatal msgPrefixMissing
    else
      let goBuildTags := os_Getenv env in
      let header :=
        if negb (goBuildTags =? "")
        then (header ++ [buildTagsDefine goBuildTags])%list
        else header in
      Returned (header, prefix)
  | Fatal msg => Fatal msg
  | Panic msg => Panic msg
  end.

(** What [main] sees of its environment.  [inFile] gives, for the path in
    [os.Args[1]], either the error of [os.ReadFile] or the lines that
    [bufio.Scanner] yields for the content (the values of [s.Text()]). *)
Record World : Type := {
  os_Create : option string;
  os_Args : list string;
  inFile : string -> string + list string;
  GO_BUILD_TAGS : option string;
  outFile_Write : option string
}.

(** The text of [config.go]: the fixed runtime support with the prefix
    substituted for [{{.Prefix}}] (its behaviour is module [Buildcfg] below),
    followed by one declaration per entry. *)
Record Generated : Type := { gPrefix : string; gDecls : list string }.

(** How a run of the generator ends: the exit status, the diagnostics
    printed, and the text of [config.go] when the run has written all of it
    ([None] otherwise: the file is then missing, empty or incomplete). *)
Record Run : Type := {
  status : Z;
  printed : list string;
  config_go : option Generated
}.

(** The [range] over [.Defines]: [None] when a call of [WriteLine] panics,
    which [text/template] turns into an error of [Execute]. *)
Fixpoint renderDefines (header : list Define) : option (list string) :=
  match header with
  | [] => Some []
  | d :: rest =>
    match WriteLine d, renderDefines rest with
    | Some l, Some ls => Some (l :: ls)
    | _, _ => None
    end
  end.

(** The diagnostics of Go's runtime and of [text/template], abridged. *)
Definition msgRender : string := "template: error calling WriteLine".
Definition msgArgs : string := "runtime error: index out of range [1]".
Definition msgSlice : string :=
  "runtime error: slice bounds out of range [1:0]".

(** [confgenTemplate.Execute(outFile, data)]: the error, or the text written. *)
Definition Execute (w : World) (prefix : string) (header : list Define)
  : string + Generated :=
  match renderDefines header with
  | None => inl msgRender
  | Some decls =>
    match outFile_Write w with
    | Some err => inl err
    | None => inr {| gPrefix := prefix; gDecls := decls |}
    end
  end.

(** [main]. *)
Definition main (w : World) : Run :=
  match os_Create w with
  | Some err => {| status := statusReturn; printed := [err]; config_go := None |}
  | None =>
    match nth_error (os_Args w) 1 with
    | None => {| status := statusPanic; printed := [msgArgs]; config_go := None |}
    | Some path =>
      match inFile w path with
      | inl err =>
        {| status := statusReturn; printed := [err]; config_go := None |}
      | inr lines =>
        match extract lines (GO_BUILD_TAGS w) with
        | Fatal msg =>
          {| status := statusFatal; printed := [msg]; config_go := None |}
        | Panic msg =>
          {| status := statusPanic; printed := [msg]; config_go := None |}
        | Returned (header, prefix) =>
          match goSlice prefix 1 (Z.of_nat (String.length prefix) - 1) with
          | None =>
            {| status := statusPanic; printed := [msgSlice]; config_go := None |}
          | Some p =>
            match Execute w p header with
            | inl err =>
              {| status := statusReturn; printed := [err]; config_go := None |}
            | inr g =>
              {| status := statusReturn; printed := []; config_go := Some g |}
            end
          end
        end
      end
    end
  end.

End Confgen.

(** ** The generated runtime: the text of [confgenTemplate] *)
Module Buildcfg.

(** What the running program sees of its environment at one call:
    [os_Executable] is the path [os.Executable] returns ([None] when it
    fails), [os_Stat p] tells whether [os.Stat(p)] succeeds.  The world is an
    argument of every call, so it may differ from one call to the next. *)
Record World : Type := {
  os_Executable : option string;
  os_Stat : string -> bool
}.

(** The package variables.  A [sync.Once] is the flag that records whether
    its function has run. *)
Record State : Type := {
  prefixOnce : bool;
  installPrefix : string;
  isSuidOnce : bool;
  suidInstall : Z
}.

Definition initial : State :=
  {| prefixOnce := false; installPrefix := "";
     isSuidOnce := false; suidInstall := 0%Z |}.

Definition suidHelper : string := "/libexec/apptainer/bin/starter-suid".
Definition msgSuid : string := "Relocation not allowed with starter-suid".

Section Runtime.

(** The build-time prefix, the value of [{{.Prefix}}]. *)
Variable Prefix : string.

(** The function run under [prefixOnce]; its result is the value it stores
    in [installPrefix].  (Its log messages are left out.) *)
Definition discoverPrefix (w : World) : string :=
  match os_Executable w with
  | None => Prefix
  | Some executablePath =>
    let bin := Filepath.Dir executablePath in
    let base := Filepath.Base executablePath in
    if base =? "apptainer" then Filepath.Dir bin
    else if (base =? "starter") || (base =? "starter-suid") then
      Filepath.Dir (Filepath.Dir (Filepath.Dir bin))
    else Prefix
  end.

(** [getPrefix]. *)
Definition getPrefix (w : World) (st : State) : string * State :=
  let st :=
    if prefixOnce st then st
    else {| prefixOnce := true; installPrefix := discoverPrefix w;
            isSuidOnce := isSuidOnce st; suidInstall := suidInstall st |} in
  (installPrefix st, st).

(** [isSuidInstall]. *)
Definition isSuidInstall (w : World) (st : State) : Z * State :=
  let st :=
    if isSuidOnce st then st
    else
      let (prefix, st1) := getPrefix w st in
      let path := prefix ++ suidHelper in
      {| prefixOnce := prefixOnce st1; installPrefix := installPrefix st1;
         isSuidOnce := true;
         suidInstall := if os_Stat w path then 1%Z else suidInstall st1 |} in
  (suidInstall st, st).

(** [relocatePath].  [domain] is [None] where the source returns [original]
    for a path outside the prefix and the two roots, and otherwise holds the
    value of the source's [rootPrefix]. *)
Definition relocatePath (w : World) (st : State) (original : string)
  : outcome string * State :=
  if (Prefix =? "") || (Prefix =? "/") then (Returned original, st)
  else
    let domain :=
      if negb (GoStrings.HasPrefix original Prefix) then
        if GoStrings.HasPrefix original "/etc/apptainer" ||
           GoStrings.HasPrefix original "/var/apptainer"
        then Some true
        else None
      else Some false in
    match domain with
    | None => (Returned original, st)
    | Some rootPrefix =>
      let (prefix, st1) := getPrefix w st in
      if prefix =? Prefix then (Returned original, st1)
      else
        let (suid, st2) := isSuidInstall w st1 in
        if (suid =? 1)%Z then (Fatal msgSuid, st2)
        else
          let base := if rootPrefix then "/" else Prefix in
          match Filepath.Rel base original with
          | None => (Fatal (Filepath.relError base original), st2)
          | Some relativePath =>
            (Returned (Filepath.Join [prefix; relativePath]), st2)
          end
    end.

End Runtime.

End Buildcfg.

(** ** The specification's vocabulary *)
Module Spec.

(** The value tokens of an entry: every word after the marker and the name. *)
Definition valueTokens (d : Confgen.Define) : list string :=
  skipn 2 (Confgen.Words d).

(** "the concatenation of all value tokens joined by [" + "]". *)
Definition joinedValue (d : Confgen.Define) : string :=
  String.concat " + " (valueTokens d).

(** A rendered declaration is a variable or a compile-time constant by its
    keyword. *)
Definition isVar (decl : string) : bool := GoStrings.HasPrefix decl "var ".
Definition isConst (decl : string) : bool := GoStrings.HasPrefix decl "const ".


(** The entries of an input: one per recognized line, in input order. *)
Definition entries (lines : list string) : list Confgen.Define :=
  filter Confgen.recognized (map Confgen.parseLine lines).

Definition isPrefixEntry (d : Confgen.Define) : bool :=
  Confgen.name d =? "PREFIX".

(** A [PREFIX] entry whose token count is not three. *)
Definition malformedPrefix (d : Confgen.Define) : bool :=
  isPrefixEntry d && negb (List.length (Confgen.Words d) =? 3)%nat.

(** The value token of the last [PREFIX] entry, [dflt] when there is none. *)
Definition prefixToken (es : list Confgen.Define) (dflt : string) : string :=
  fold_left (fun p d => if isPrefixEntry d then Confgen.value d else p) es dflt.

(** The synthetic entry: present exactly when the override is set and not
    empty. *)
Definition synthetic (env : option string) : list Confgen.Define :=
  match env with
  | Some tags => if tags =? "" then [] else [Confgen.buildTagsDefine tags]
  | None => []
  end.

(** The relocation domain of a build-time prefix: the prefix is neither empty
    nor the root, and the path starts with the prefix or with one of the two
    fixed roots. *)
Definition inDomain (Prefix original : string) : bool :=
  negb ((Prefix =? "") || (Prefix =? "/")) &&
  (GoStrings.HasPrefix original Prefix ||
   GoStrings.HasPrefix original "/etc/apptainer" ||
   GoStrings.HasPrefix original "/var/apptainer").

(** The directory a path of the domain is taken relative to: the build-time
    prefix when the path starts with it, the filesystem root otherwise. *)
Definition relativeTo (Prefix original : string) : string :=
  if GoStrings.HasPrefix original Prefix then Prefix else "/".

(** The directory that holds the executable, and the directory [n] levels
    above a directory. *)
Definition executableDir (exe : string) : string := Filepath.Dir exe.
Definition levelsUp (n : nat) (dir : string) : string :=
  Nat.iter n Filepath.Dir dir.

(** A proper path element: not empty, without separator, and neither [.]
    nor [..]. *)
Definition plainElem (e : string) : bool :=
  negb (e =? "") && negb (Filepath.hasSep e) && negb (e =? ".") &&
  negb (e =? "..").

(** The absolute path with the given elements: [/e1/.../en], and [/] when
    there are none. *)
Definition absPath (elems : list string) : string :=
  "/" ++ String.concat "/" elems.

End Spec.

(** ** Sample inputs *)
Module Sample.

Definition quoted (s : string) : string := dquote ++ s ++ dquote.

(** A small [config.h]. *)
Definition config_h : list string :=
  ["/* config.h.  Generated by mconfig */";
   "#define PREFIX " ++ quoted "/usr";
   "#define BINDIR " ++ quoted "/usr/bin";
   "";
   "#define SESSIONDIR LOCALSTATEDIR " ++ quoted "/apptainer/mnt/session";
   "#undef APPTAINER_NO_SETNS";
   "#define CAPABILITY_FILE APPTAINER_CONFDIR " ++ quoted "/capability.json";
   "#define APPTAINER_SUID_INSTALL 1";
   "#define FOO " ++ quoted "/usr/local";
   "#define WITH_SECCOMP"].

Definition bindir : Confgen.Define :=
  Confgen.parseLine ("#define BINDIR " ++ quoted "/usr/bin").

Definition sessiondir : Confgen.Define :=
  Confgen.parseLine
    ("#define SESSIONDIR LOCALSTATEDIR " ++ quoted "/apptainer/mnt/session").

Definition suid_install : Confgen.Define :=
  Confgen.parseLine "#define APPTAINER_SUID_INSTALL 1".



(** A run of the generator on [lines] in which every file operation
    succeeds. *)
Definition genWorld (lines : list string) (tags : option string)
  : Confgen.World :=
  {| Confgen.os_Create := None;
     Confgen.os_Args := ["confgen"; "config.h"];
     Confgen.inFile := fun _ => inr lines;
     Confgen.GO_BUILD_TAGS := tags;
     Confgen.outFile_Write := None |}.

(** A run in which [config.go] cannot be created. *)
Definition createFails : Confgen.World :=
  {| Confgen.os_Create := Some "open config.go: permission denied";
     Confgen.os_Args := ["confgen"; "config.h"];
     Confgen.inFile := fun _ => inr config_h;
     Confgen.GO_BUILD_TAGS := None;
     Confgen.outFile_Write := None |}.

(** A run in which [config.h] cannot be read. *)
Definition readFails : Confgen.World :=
  {| Confgen.os_Create := None;
     Confgen.os_Args := ["confgen"; "config.h"];
     Confgen.inFile := fun _ => inl "open config.h: no such file or directory";
     Confgen.GO_BUILD_TAGS := None;
     Confgen.outFile_Write := None |}.

(** A run in which writing [config.go] fails. *)
Definition writeFails : Confgen.World :=
  {| Confgen.os_Create := None;
     Confgen.os_Args := ["confgen"; "config.h"];
     Confgen.inFile := fun _ => inr config_h;
     Confgen.GO_BUILD_TAGS := None;
     Confgen.outFile_Write := Some "write config.go: no space left on device" |}.

(** The program built for [/usr] runs from [/opt/app/bin/apptainer]; there
    is no setuid starter. *)
Definition movedWorld : Buildcfg.World :=
  {| Buildcfg.os_Executable := Some "/opt/app/bin/apptainer";
     Buildcfg.os_Stat := fun _ => false |}.

(** The same, with a setuid starter under the discovered prefix. *)
Definition movedSuidWorld : Buildcfg.World :=
  {| Buildcfg.os_Executable := Some "/opt/app/bin/apptainer";
     Buildcfg.os_Stat :=
       fun p => p =? "/opt/app/libexec/apptainer/bin/starter-suid" |}.

(** The starter of the same installation. *)
Definition starterWorld : Buildcfg.World :=
  {| Buildcfg.os_Executable := Some "/opt/app/libexec/apptainer/bin/starter";
     Buildcfg.os_Stat := fun _ => false |}.

(** [os.Executable] fails. *)
Definition noExecutableWorld : Buildcfg.World :=
  {| Buildcfg.os_Executable := None; Buildcfg.os_Stat := fun _ => false |}.

End Sample.

(** ** Calls into the generated runtime *)
Module Process.

(** The calls a program makes into the generated runtime. *)
Inductive call : Type :=
| GetPrefix
| IsSuidInstall
| RelocatePath (original : string).

Section Calls.

Variable Prefix : string.

(** The package variables after one call made in the world [w]. *)
Definition after (w : Buildcfg.World) (c : call) (st : Buildcfg.State)
  : Buildcfg.State :=
  match c with
  | GetPrefix => snd (Buildcfg.getPrefix Prefix w st)
  | IsSuidInstall => snd (Buildcfg.isSuidInstall Prefix w st)
  | RelocatePath original => snd (Buildcfg.relocatePath Prefix w st original)
  end.

(** The package variables after calls made one after the other, each in the
    world of its moment.  (A call stopped by [sylog.Fatalf] ends the process;
    the sequences here include those that would go on, which only adds
    states.) *)
Fixpoint run (cs : list (Buildcfg.World * call)) (st : Buildcfg.State)
  : Buildcfg.State :=
  match cs with
  | [] => st
  | (w, c) :: rest => run rest (after w c st)
  end.

End Calls.

(** What holds of the package variables throughout a process: the suid flag
    is 0 or 1, it is 0 as long as detection has not run, and detection has
    run only after discovery. *)
Definition consistent (st : Buildcfg.State) : Prop :=
  (Buildcfg.suidInstall st = 0%Z \/ Buildcfg.suidInstall st = 1%Z) /\
  (Buildcfg.isSuidOnce st = false -> Buildcfg.suidInstall st = 0%Z) /\
  (Buildcfg.isSuidOnce st = true -> Buildcfg.prefixOnce st = true).

End Process.

(** ** Tokens of a configuration line *)
Module Lines.

(** A byte that is neither white space nor the first byte of the encoding
    of a white-space rune. *)
Definition tokenByte (c : ascii) : bool :=
  negb (GoStrings.asciiSpace c) &&
  negb (byteIs c 194 || byteIs c 225 || byteIs c 226 || byteIs c 227).

Fixpoint allBytes (p : ascii -> bool) (s : string) : bool :=
  match s with
  | EmptyString => true
  | String c r => p c && allBytes p r
  end.

(** A token: not empty and made of such bytes. *)
Definition isToken (s : string) : bool :=
  negb (s =? "") && allBytes tokenByte s.

(** The line made of the tokens with one space between them. *)
Definition joinTokens (ws : list string) : string := String.concat " " ws.

End Lines.

(** * Properties *)

(** ** Strings *)

Lemma append_nil_r (s : string) : s ++ "" = s.
Proof. induction s as [|c s IH]; simpl; [reflexivity | now rewrite IH]. Qed.

Lemma append_assoc (a b c : string) : (a ++ b) ++ c = a ++ (b ++ c).
Proof. induction a as [|x a IH]; simpl; [reflexivity | now rewrite IH]. Qed.

Lemma append_snoc_nonempty (s : string) (c : ascii) : s ++ String c "" <> "".
Proof. destruct s; simpl; discriminate. Qed.

(** ** Go's library functions on their documented cases

    The cases are those of the tables that Go's own tests of [path/filepath]
    use on Unix, and a few of [strings]. *)
Module GoLibraryExamples.
Import Filepath.
Example Clean_cases :
  Clean "abc" = "abc" /\
  Clean "abc/def" = "abc/def" /\
  Clean "a/b/c" = "a/b/c" /\
  Clean "." = "." /\
  Clean ".." = ".." /\
  Clean "../.." = "../.." /\
  Clean "../../abc" = "../../abc" /\
  Clean "/abc" = "/abc" /\
  Clean "/" = "/" /\
  Clean "" = "." /\
  Clean "abc/" = "abc" /\
  Clean "abc/def/" = "abc/def" /\
  Clean "a/b/c/" = "a/b/c" /\
  Clean "./" = "." /\
  Clean "../" = ".." /\
  Clean "../../" = "../.." /\
  Clean "/abc/" = "/abc" /\
  Clean "abc//def//ghi" = "abc/def/ghi" /\
  Clean "//abc" = "/abc" /\
  Clean "///abc" = "/abc" /\
  Clean "//abc//" = "/abc" /\
  Clean "abc//" = "abc" /\
  Clean "abc/./def" = "abc/def" /\
  Clean "/./abc/def" = "/abc/def" /\
  Clean "abc/." = "abc" /\
  Clean "abc/def/ghi/../jkl" = "abc/def/jkl" /\
  Clean "abc/def/../ghi/../jkl" = "abc/jkl" /\
  Clean "abc/def/.." = "abc" /\
  Clean "abc/def/../.." = "." /\
  Clean "/abc/def/../.." = "/" /\
  Clean "abc/def/../../.." = ".." /\
  Clean "/abc/def/../../.." = "/" /\
  Clean "abc/def/../../../ghi/jkl/../../../mno" = "../../mno" /\
  Clean "/../abc" = "/abc" /\
  Clean "abc/./../def" = "def" /\
  Clean "abc//./../def" = "def" /\
  Clean "abc/../../././../def" = "../../def".
Proof. repeat split. Qed.
Example Base_cases :
  Base "" = "." /\
  Base "." = "." /\
  Base "/." = "." /\
  Base "/" = "/" /\
  Base "////" = "/" /\
  Base "x/" = "x" /\
  Base "abc" = "abc" /\
  Base "abc/def" = "def" /\
  Base "a/b/.x" = ".x" /\
  Base "a/b/c." = "c." /\
  Base "a/b/c.x" = "c.x".
Proof. repeat split. Qed.
Example Dir_cases :
  Dir "" = "." /\
  Dir "." = "." /\
  Dir "/." = "/" /\
  Dir "/" = "/" /\
  Dir "////" = "/" /\
  Dir "/foo" = "/" /\
  Dir "x/" = "x" /\
  Dir "abc" = "." /\
  Dir "abc/def" = "abc" /\
  Dir "a/b/.x" = "a/b" /\
  Dir "a/b/c." = "a/b" /\
  Dir "a/b/c.x" = "a/b".
Proof. repeat split. Qed.
Example Join_cases :
  Join ["a"; "b"] = "a/b" /\
  Join ["a"; ""] = "a" /\
  Join [""; "b"] = "b" /\
  Join ["/"; "a"] = "/a" /\
  Join ["/"; "a/b"] = "/a/b" /\
  Join ["/"; ""] = "/" /\
  Join ["/a"; "b"] = "/a/b" /\
  Join ["a"; "/b"] = "a/b" /\
  Join ["/a"; "/b"] = "/a/b" /\
  Join ["a/"; "b"] = "a/b" /\
  Join ["a/"; ""] = "a" /\
  Join [""; ""] = "" /\
  Join [] = "" /\
  Join [""] = "" /\
  Join ["a"] = "a".
Proof. repeat split. Qed.
Example Rel_cases :
  Rel "a/b" "a/b" = Some "." /\
  Rel "a/b/." "a/b" = Some "." /\
  Rel "a/b" "a/b/." = Some "." /\
  Rel "./a/b" "a/b" = Some "." /\
  Rel "a/b" "./a/b" = Some "." /\
  Rel "ab/cd" "ab/cde" = Some "../cde" /\
  Rel "ab/cd" "ab/c" = Some "../c" /\
  Rel "a/b" "a/b/c/d" = Some "c/d" /\
  Rel "a/b" "a/b/../c" = Some "../c" /\
  Rel "a/b/../c" "a/b" = Some "../b" /\
  Rel "a/b/c" "a/c/d" = Some "../../c/d" /\
  Rel "a/b" "c/d" = Some "../../c/d" /\
  Rel "a/b/c/d" "a/b" = Some "../.." /\
  Rel "a/b/c/d" "a/b/" = Some "../.." /\
  Rel "a/b/c/d/" "a/b" = Some "../.." /\
  Rel "a/b/c/d/" "a/b/" = Some "../.." /\
  Rel "../../a/b" "../../a/b/c/d" = Some "c/d" /\
  Rel "/a/b" "/a/b" = Some "." /\
  Rel "/a/b/." "/a/b" = Some "." /\
  Rel "/a/b" "/a/b/." = Some "." /\
  Rel "/ab/cd" "/ab/cde" = Some "../cde" /\
  Rel "/ab/cd" "/ab/c" = Some "../c" /\
  Rel "/a/b" "/a/b/c/d" = Some "c/d" /\
  Rel "/a/b" "/a/b/../c" = Some "../c" /\
  Rel "/a/b/../c" "/a/b" = Some "../b" /\
  Rel "/a/b/c" "/a/c/d" = Some "../../c/d" /\
  Rel "/a/b" "/c/d" = Some "../../c/d" /\
  Rel "/a/b/c/d" "/a/b" = Some "../.." /\
  Rel "/a/b/c/d" "/a/b/" = Some "../.." /\
  Rel "/a/b/c/d/" "/a/b" = Some "../.." /\
  Rel "/a/b/c/d/" "/a/b/" = Some "../.." /\
  Rel "/../../a/b" "/../../a/b/c/d" = Some "c/d" /\
  Rel "." "a/b" = Some "a/b" /\
  Rel "." ".." = Some ".." /\
  Rel ".." "." = None /\
  Rel ".." "a" = None /\
  Rel "a" "/a" = None /\
  Rel "/a" "a" = None /\
  Rel "../.." ".." = None /\
  Rel "../.." "../..a/.." = None /\
  Rel "../../a" "../.." = Some ".." /\
  Rel "../.." "../../a" = Some "a".
Proof. repeat split. Qed.
Example Fields_cases :
  let tab := String (ascii_of_nat 9) "" in
  GoStrings.Fields "" = [] /\
  GoStrings.Fields " " = [] /\
  GoStrings.Fields (" " ++ tab ++ " ") = [] /\
  GoStrings.Fields "  abc  " = ["abc"] /\
  GoStrings.Fields "1 2 3 4" = ["1"; "2"; "3"; "4"] /\
  GoStrings.Fields "1  2  3  4" = ["1"; "2"; "3"; "4"] /\
  GoStrings.Fields ("1" ++ tab ++ tab ++ "2" ++ tab ++ tab ++ "3" ++ tab ++ "4")
    = ["1"; "2"; "3"; "4"] /\
  GoStrings.Fields "#define PREFIX /usr" = ["#define"; "PREFIX"; "/usr"].
Proof. repeat split. Qed.

(** U+2000 (bytes 226, 128, 128) and U+00A0 (bytes 194, 160) separate
    fields; the byte 160 alone, and U+200B (bytes 226, 128, 139), do not. *)
Example Fields_unicode :
  let b n := String (ascii_of_nat n) "" in
  GoStrings.Fields ("1" ++ b 226 ++ b 128 ++ b 128 ++ "2" ++ b 194 ++ b 160 ++ "3")
    = ["1"; "2"; "3"] /\
  GoStrings.Fields ("1" ++ b 160 ++ "2") = ["1" ++ b 160 ++ "2"] /\
  GoStrings.Fields ("1" ++ b 226 ++ b 128 ++ b 139 ++ "2")
    = ["1" ++ b 226 ++ b 128 ++ b 139 ++ "2"].
Proof. repeat split. Qed.

Example Contains_cases :
  GoStrings.Contains "abc" "bc" = true /\
  GoStrings.Contains "abc" "bcd" = false /\
  GoStrings.Contains "abc" "" = true /\
  GoStrings.Contains "" "a" = false /\
  GoStrings.Contains "" "" = true.
Proof. repeat split. Qed.

Example HasPrefix_cases :
  GoStrings.HasPrefix "abc" "ab" = true /\
  GoStrings.HasPrefix "abc" "" = true /\
  GoStrings.HasPrefix "ab" "abc" = false /\
  GoStrings.HasPrefix "/usrlocal" "/usr" = true.
Proof. repeat split. Qed.

End GoLibraryExamples.

Module GoStringsFacts.
Import GoStrings.

(** [HasPrefix] decides that the string starts with the prefix. *)
Lemma HasPrefix_spec (s p : string) :
  HasPrefix s p = true <-> exists post, s = p ++ post.
Proof.
  unfold HasPrefix. revert s.
  induction p as [|c p IH]; intros s.
  - split; [intros _; exists s; reflexivity | intros _; destruct s; reflexivity].
  - destruct s as [|d s]; simpl.
    + split; [discriminate | intros [post H]; discriminate].
    + destruct (ascii_dec c d) as [->|Hne].
      * rewrite IH. split; intros [post H]; exists post.
        -- now rewrite H.
        -- now inversion H.
      * split; [discriminate | intros [post H]; inversion H; congruence].
Qed.


Lemma flush_nonempty (cur w : string) : In w (flush cur) -> w <> "".
Proof.
  destruct cur; simpl; [tauto|]. intros [<-|[]]. discriminate.
Qed.

Lemma fieldsFrom_nonempty (s : string) :
  forall skip cur w, In w (fieldsFrom s skip cur) -> w <> "".
Proof.
  induction s as [|c s IH]; intros skip cur w; cbn [fieldsFrom].
  - apply flush_nonempty.
  - destruct skip as [|k]; [|apply IH].
    destruct (spaceWidth (String c s)) as [|k]; [apply IH|].
    rewrite in_app_iff. intros [H|H]; [eapply flush_nonempty|eapply IH]; eassumption.
Qed.

(** No field of [Fields] is empty. *)
Lemma Fields_nonempty (s w : string) : In w (Fields s) -> w <> "".
Proof. apply fieldsFrom_nonempty. Qed.

End GoStringsFacts.

(** ** Paths *)
Module FilepathFacts.
Import Filepath.

Lemma isSep_slash : isSep "/" = true.
Proof. reflexivity. Qed.

Lemma hasSep_cons (c : ascii) (s : string) :
  hasSep (String c s) = false -> isSep c = false /\ hasSep s = false.
Proof. cbn [hasSep]. apply orb_false_iff. Qed.

Lemma hasSep_app_sep (s e : string) : hasSep (s ++ String "/" e) = true.
Proof.
  induction s as [|c s IH]; [reflexivity|].
  cbn [append hasSep]. rewrite IH. apply orb_true_r.
Qed.

Lemma append_cons_eq (c : ascii) (s e : string) :
  String c s ++ String "/" e = String c (s ++ String "/" e).
Proof. reflexivity. Qed.

Lemma hasSep_app_sep_cons (c : ascii) (s e : string) :
  hasSep (String c s ++ String "/" e) = true.
Proof. apply hasSep_app_sep. Qed.

Lemma plainElem_spec (e : string) :
  Spec.plainElem e = true <->
  e <> "" /\ hasSep e = false /\ e <> "." /\ e <> "..".
Proof.
  unfold Spec.plainElem.
  rewrite !andb_true_iff, !negb_true_iff, !String.eqb_neq. tauto.
Qed.

(** *** Splitting at separators *)

Lemma splitSep_nosep (e : string) : hasSep e = false -> splitSep e = [e].
Proof.
  induction e as [|c e IH]; [reflexivity|].
  intros H. apply hasSep_cons in H. destruct H as [Hc He].
  cbn [splitSep]. rewrite Hc, (IH He). reflexivity.
Qed.

Lemma splitSep_app_sep (e s : string) :
  hasSep e = false -> splitSep (e ++ String "/" s) = e :: splitSep s.
Proof.
  induction e as [|c e IH]; [reflexivity|].
  intros H. apply hasSep_cons in H. destruct H as [Hc He].
  cbn [append splitSep]. rewrite Hc, (IH He). reflexivity.
Qed.

Lemma concat_cons2 (e e2 : string) (l : list string) :
  String.concat "/" (e :: e2 :: l) = e ++ String "/" (String.concat "/" (e2 :: l)).
Proof. reflexivity. Qed.

Lemma splitSep_concat (l : list string) :
  Forall (fun e => hasSep e = false) l -> l <> [] ->
  splitSep (String.concat "/" l) = l.
Proof.
  induction l as [|e l IH]; [congruence|].
  intros Hall _. inversion Hall as [|x y He Hl]; subst.
  destruct l as [|e2 l].
  - apply splitSep_nosep. exact He.
  - rewrite concat_cons2, (splitSep_app_sep _ _ He), IH;
      [reflexivity | assumption | discriminate].
Qed.

Lemma splitSep_all_nosep (s : string) :
  Forall (fun e => hasSep e = false) (splitSep s).
Proof.
  induction s as [|c s IH]; [repeat constructor|].
  cbn [splitSep]. destruct (isSep c) eqn:Hc; [constructor; [reflexivity|exact IH]|].
  destruct (splitSep s) as [|e es]; inversion IH; subst;
    constructor; try assumption; cbn [hasSep]; rewrite Hc; try reflexivity.
  assumption.
Qed.

Lemma concat_snoc (l : list string) (e : string) :
  l <> [] ->
  String.concat "/" (l ++ [e]) = String.concat "/" l ++ String "/" e.
Proof.
  induction l as [|x l IH]; [congruence|]. intros _.
  destruct l as [|y l]; [reflexivity|].
  change ((x :: y :: l) ++ [e])%list with (x :: ((y :: l) ++ [e]))%list.
  cbn [app]. rewrite !concat_cons2.
  change (y :: (l ++ [e]))%list with ((y :: l) ++ [e])%list.
  rewrite IH by discriminate. cbn [append]. now rewrite append_assoc.
Qed.

(** An absolute path extended by one element. *)
Lemma absPath_snoc (l : list string) (e : string) :
  Spec.absPath (l ++ [e]) =
  (match l with [] => "" | _ => Spec.absPath l end) ++ String "/" e.
Proof.
  unfold Spec.absPath. destruct l as [|x l]; [reflexivity|].
  rewrite concat_snoc by discriminate. cbn [append]. reflexivity.
Qed.

(** *** [Clean] on a clean absolute path *)

Lemma cleanStep_plain (rooted : bool) (out : list string) (e : string) :
  Spec.plainElem e = true -> cleanStep rooted out e = e :: out.
Proof.
  intros H. apply plainElem_spec in H. destruct H as [H1 [_ [H2 H3]]].
  unfold cleanStep. apply String.eqb_neq in H1, H2, H3.
  now rewrite H1, H2, H3.
Qed.

Lemma cleanStep_empty (rooted : bool) (out : list string) :
  cleanStep rooted out "" = out.
Proof. reflexivity. Qed.

Lemma fold_cleanStep_plain (rooted : bool) (l : list string) :
  Forall (fun e => Spec.plainElem e = true) l ->
  forall out, fold_left (cleanStep rooted) l out = (rev l ++ out)%list.
Proof.
  induction 1 as [|e l He _ IH]; intros out; [reflexivity|].
  cbn [fold_left rev]. rewrite (cleanStep_plain _ _ _ He), IH, <- app_assoc.
  reflexivity.
Qed.

Lemma plain_nosep (l : list string) :
  Forall (fun e => Spec.plainElem e = true) l ->
  Forall (fun e => hasSep e = false) l.
Proof.
  apply Forall_impl. intros e H. now apply plainElem_spec in H.
Qed.

(** [Clean] on an absolute path made of proper elements, possibly followed
    by a slash, gives the path without the trailing slash. *)
Lemma Clean_absPath_slashes (l : list string) (trailing : bool) :
  Forall (fun e => Spec.plainElem e = true) l ->
  Clean (Spec.absPath (if trailing then (l ++ [""])%list else l)) =
  Spec.absPath l.
Proof.
  intros Hl.
  assert (Hsplit : forall m, Forall (fun e => hasSep e = false) m ->
            splitSep (Spec.absPath m) =
            "" :: match m with [] => [""] | _ => m end).
  { intros m Hm. unfold Spec.absPath. cbn [append].
    cbn [splitSep]. rewrite isSep_slash. f_equal.
    destruct m as [|x m]; [reflexivity|].
    apply splitSep_concat; [assumption | discriminate]. }
  unfold Clean. unfold Spec.absPath at 1. cbn [append].
  rewrite isSep_slash.
  change (String "/" (String.concat "/" ?m)) with (Spec.absPath m).
  assert (Hfold : fold_left (cleanStep true)
            (splitSep (Spec.absPath (if trailing then (l ++ [""])%list else l)))
            [] = rev l).
  { assert (Hskip : forall m, fold_left (cleanStep true) ("" :: m) [] =
                               fold_left (cleanStep true) m []) by reflexivity.
    destruct trailing.
    - rewrite Hsplit.
      + destruct (l ++ [""])%list eqn:E; [now destruct l|]. rewrite <- E.
        rewrite Hskip, fold_left_app, (fold_cleanStep_plain _ _ Hl).
        cbn [fold_left]. rewrite cleanStep_empty. apply app_nil_r.
      + apply Forall_app. split; [now apply plain_nosep|].
        repeat constructor.
    - rewrite Hsplit by now apply plain_nosep.
      destruct l as [|x l]; [reflexivity|].
      rewrite Hskip, (fold_cleanStep_plain _ _ Hl). apply app_nil_r. }
  rewrite Hfold, rev_involutive. reflexivity.
Qed.

Lemma Clean_absPath (l : list string) :
  Forall (fun e => Spec.plainElem e = true) l ->
  Clean (Spec.absPath l) = Spec.absPath l.
Proof. apply (Clean_absPath_slashes l false). Qed.

(** *** [Dir] and [Base] of an absolute path *)

Lemma uptoLastSep_nosep (e : string) : hasSep e = false -> uptoLastSep e = "".
Proof. destruct e as [|c e]; [reflexivity|]. intros H. cbn [uptoLastSep]. now rewrite H. Qed.

Lemma afterLastSep_nosep (e : string) : hasSep e = false -> afterLastSep e = e.
Proof. destruct e as [|c e]; [reflexivity|]. intros H. cbn [afterLastSep]. now rewrite H. Qed.

Lemma uptoLastSep_app (s e : string) :
  hasSep e = false -> uptoLastSep (s ++ String "/" e) = s ++ "/".
Proof.
  intros He. induction s as [|c s IH].
  - cbn [append uptoLastSep hasSep]. rewrite isSep_slash. cbn [orb].
    now rewrite (uptoLastSep_nosep e He).
  - cbn [append]. cbn [uptoLastSep]. rewrite <- (append_cons_eq c s e).
    rewrite hasSep_app_sep_cons, IH. reflexivity.
Qed.

Lemma afterLastSep_app (s e : string) :
  hasSep e = false -> afterLastSep (s ++ String "/" e) = e.
Proof.
  intros He. induction s as [|c s IH].
  - cbn [append afterLastSep hasSep]. rewrite isSep_slash. cbn [orb].
    apply (afterLastSep_nosep e He).
  - cbn [append]. cbn [afterLastSep]. rewrite <- (append_cons_eq c s e).
    rewrite hasSep_app_sep_cons, IH. reflexivity.
Qed.

Lemma stripTrailingSeps_nosep (e : string) :
  hasSep e = false -> stripTrailingSeps e = e.
Proof.
  induction e as [|c e IH]; [reflexivity|].
  intros H. apply hasSep_cons in H. destruct H as [Hc He].
  cbn [stripTrailingSeps]. rewrite Hc, (IH He). reflexivity.
Qed.

Lemma stripTrailingSeps_app (s e : string) :
  e <> "" -> hasSep e = false -> stripTrailingSeps (s ++ e) = s ++ e.
Proof.
  intros Hne He. induction s as [|c s IH].
  - apply (stripTrailingSeps_nosep e He).
  - cbn [append stripTrailingSeps]. rewrite IH.
    destruct (s ++ e) eqn:E.
    + destruct s; [cbn in E; congruence | discriminate].
    + rewrite andb_false_r. reflexivity.
Qed.

(** The directory of [/e1/.../en/e] is [/e1/.../en]. *)
Lemma Dir_absPath (l : list string) (e : string) :
  Forall (fun x => Spec.plainElem x = true) l -> hasSep e = false ->
  Dir (Spec.absPath (l ++ [e])) = Spec.absPath l.
Proof.
  intros Hl He. unfold Dir.
  rewrite absPath_snoc, (uptoLastSep_app _ e He).
  destruct l as [|x l].
  - reflexivity.
  - change (Clean (Spec.absPath (x :: l) ++ String "/" "") =
            Spec.absPath (x :: l)).
    rewrite <- (absPath_snoc (x :: l) "").
    apply (Clean_absPath_slashes (x :: l) true Hl).
Qed.

(** The base name of [/e1/.../en/e] is [e]. *)
Lemma Base_absPath (l : list string) (e : string) :
  Spec.plainElem e = true -> Base (Spec.absPath (l ++ [e])) = e.
Proof.
  intros He. apply plainElem_spec in He. destruct He as [Hne [Hsep _]].
  rewrite absPath_snoc. unfold Base.
  destruct (_ ++ String "/" e) eqn:E.
  - destruct (match l with [] => "" | _ => Spec.absPath l end); discriminate.
  - rewrite <- E.
    change (String "/" e) with ("/" ++ e). rewrite <- append_assoc.
    rewrite (stripTrailingSeps_app _ e Hne Hsep), append_assoc.
    cbn [append]. rewrite (afterLastSep_app _ e Hsep).
    apply String.eqb_neq in Hne. now rewrite Hne.
Qed.

(** *** [Clean] of a rooted path *)

Lemma cleanStep_rooted_plain (out : list string) (e : string) :
  hasSep e = false ->
  Forall (fun x => Spec.plainElem x = true) out ->
  Forall (fun x => Spec.plainElem x = true) (cleanStep true out e).
Proof.
  intros He Hout. unfold cleanStep.
  destruct (e =? "") eqn:E1; [exact Hout|].
  destruct (e =? ".") eqn:E2; [exact Hout|]. cbn [orb].
  destruct (e =? "..") eqn:E3.
  - destruct out as [|top rest]; [exact Hout|].
    destruct (negb (top =? "..")); [now inversion Hout | exact Hout].
  - constructor; [|exact Hout]. apply plainElem_spec.
    apply String.eqb_neq in E1, E2, E3. auto.
Qed.

Lemma fold_cleanStep_rooted_plain (l : list string) :
  Forall (fun e => hasSep e = false) l ->
  forall out,
    Forall (fun x => Spec.plainElem x = true) out ->
    Forall (fun x => Spec.plainElem x = true)
           (fold_left (cleanStep true) l out).
Proof.
  induction 1 as [|e l He _ IH]; intros out Hout; [exact Hout|].
  cbn [fold_left]. apply IH. now apply cleanStep_rooted_plain.
Qed.

(** The clean form of a path that starts with a slash is an absolute path
    of proper elements. *)
Lemma Clean_rooted (path : string) :
  GoStrings.HasPrefix path "/" = true ->
  exists l,
    Forall (fun x => Spec.plainElem x = true) l /\
    Clean path = Spec.absPath l.
Proof.
  intros H. apply GoStringsFacts.HasPrefix_spec in H. destruct H as [rest ->].
  cbn [append]. unfold Clean. rewrite isSep_slash.
  exists (rev (fold_left (cleanStep true) (splitSep (String "/" rest)) [])).
  split; [|reflexivity].
  apply Forall_rev. apply fold_cleanStep_rooted_plain.
  - apply splitSep_all_nosep.
  - constructor.
Qed.

(** *** The loop of [Rel] *)

Lemma cutElem_nosep (e : string) : hasSep e = false -> cutElem e = (e, "").
Proof.
  induction e as [|c e IH]; [reflexivity|].
  intros H. apply hasSep_cons in H. destruct H as [Hc He].
  cbn [cutElem]. rewrite Hc, (IH He). reflexivity.
Qed.

Lemma cutElem_app_sep (e s : string) :
  hasSep e = false -> cutElem (e ++ String "/" s) = (e, String "/" s).
Proof.
  induction e as [|c e IH]; [reflexivity|].
  intros H. apply hasSep_cons in H. destruct H as [Hc He].
  cbn [append cutElem]. rewrite Hc, (IH He). reflexivity.
Qed.

Lemma cutElem_length (s : string) :
  String.length (fst (cutElem s)) + String.length (snd (cutElem s)) =
  String.length s.
Proof.
  induction s as [|c s IH]; [reflexivity|].
  cbn [cutElem]. destruct (isSep c); [reflexivity|].
  destruct (cutElem s) as [e t]. cbn [fst snd String.length] in *. lia.
Qed.

Lemma dropSep_length (s : string) :
  String.length (dropSep s) <= String.length s.
Proof.
  destruct s as [|c s]; [cbn; lia|].
  cbn [dropSep]. destruct (isSep c); cbn [String.length]; lia.
Qed.

(** Each round of the loop shortens the base. *)
Lemma relLoop_round_shorter (b : string) :
  b <> "" ->
  String.length (dropSep (snd (cutElem b))) < String.length b.
Proof.
  destruct b as [|c b]; [congruence|]. intros _.
  cbn [cutElem]. destruct (isSep c) eqn:Hc.
  - cbn [snd dropSep]. rewrite Hc. cbn [String.length]. lia.
  - pose proof (cutElem_length b) as Hl.
    destruct (cutElem b) as [e t]. cbn [fst snd] in *.
    pose proof (dropSep_length t). cbn [String.length]. lia.
Qed.

(** The loop does not depend on the recursion bound once the bound exceeds
    the length of the base. *)
Lemma relLoop_fuel (n : nat) :
  forall m b t,
    String.length b < n -> String.length b < m ->
    relLoop n b t = relLoop m b t.
Proof.
  induction n as [|n IH]; intros m b t Hn Hm; [lia|].
  destruct m as [|m]; [lia|].
  cbn [relLoop].
  destruct (b =? "") eqn:Eb; [reflexivity|]. cbn [orb].
  destruct (t =? ""); [reflexivity|].
  apply String.eqb_neq in Eb.
  pose proof (relLoop_round_shorter b Eb) as Hshort.
  destruct (cutElem b) as [be br]. destruct (cutElem t) as [te tr].
  cbn [snd] in Hshort.
  destruct (negb (te =? be)); [reflexivity|].
  apply IH; lia.
Qed.

Lemma plain_not_dotdot (e : string) : Spec.plainElem e = true -> e <> "..".
Proof. intros H. now apply plainElem_spec in H. Qed.

Lemma cutElem_slash (s : string) : cutElem (String "/" s) = ("", String "/" s).
Proof. reflexivity. Qed.

Lemma cutElem_plain_list (e : string) (l : list string) :
  hasSep e = false ->
  cutElem (String.concat "/" (e :: l)) =
  (e, match l with [] => "" | _ => String "/" (String.concat "/" l) end).
Proof.
  intros He. destruct l as [|e2 l]; [now apply cutElem_nosep|].
  rewrite concat_cons2. now apply cutElem_app_sep.
Qed.

(** The first element of a path made of proper elements is not [..]. *)
Lemma first_elem_plain (l : list string) :
  Forall (fun x => Spec.plainElem x = true) l ->
  fst (cutElem (String.concat "/" l)) <> "..".
Proof.
  intros Hl. destruct l as [|e l]; [discriminate|].
  inversion Hl as [|x y He _]; subst.
  rewrite cutElem_plain_list by now apply plainElem_spec in He.
  cbn [fst]. now apply plain_not_dotdot.
Qed.

(** On a base made of proper elements the loop never stops at [..]. *)
Lemma relLoop_plain (fuel : nat) :
  forall l t,
    Forall (fun x => Spec.plainElem x = true) l ->
    fst (fst (relLoop fuel (String.concat "/" l) t)) <> "..".
Proof.
  induction fuel as [|fuel IH]; intros l t Hl;
    [cbn [relLoop fst]; now apply first_elem_plain|].
  destruct l as [|e l]; [discriminate|].
  cbn [relLoop].
  destruct ((String.concat "/" (e :: l) =? "") || (t =? ""));
    [cbn [fst]; now apply first_elem_plain|].
  inversion Hl as [|x y He Hl']; subst.
  assert (Hsep : hasSep e = false) by now apply plainElem_spec in He.
  rewrite (cutElem_plain_list e l Hsep). destruct (cutElem t) as [te tr].
  destruct (negb (te =? e)).
  - cbn [fst]. now apply plain_not_dotdot.
  - replace (dropSep match l with [] => "" | _ => String "/" (String.concat "/" l) end)
      with (String.concat "/" l) by (destruct l; reflexivity).
    now apply IH.
Qed.

Lemma relLoop_absPath (fuel : nat) (l : list string) (t : string) :
  Forall (fun x => Spec.plainElem x = true) l ->
  fst (fst (relLoop fuel (Spec.absPath l) t)) <> "..".
Proof.
  intros Hl. unfold Spec.absPath. cbn [append].
  destruct fuel as [|fuel];
    [cbn [relLoop]; rewrite cutElem_slash; discriminate|].
  cbn [relLoop String.eqb orb].
  destruct (t =? ""); [rewrite cutElem_slash; discriminate|].
  rewrite cutElem_slash.
  destruct (cutElem t) as [te tr].
  destruct (negb (te =? "")); [discriminate|].
  cbn [dropSep]. rewrite isSep_slash. now apply relLoop_plain.
Qed.

(** [Rel] succeeds whenever both paths start with a slash. *)
Lemma Rel_rooted (basepath targpath : string) :
  GoStrings.HasPrefix basepath "/" = true ->
  GoStrings.HasPrefix targpath "/" = true ->
  exists rel, Rel basepath targpath = Some rel.
Proof.
  intros Hb Ht.
  destruct (Clean_rooted basepath Hb) as [lb [Hlb Eb]].
  destruct (Clean_rooted targpath Ht) as [lt [_ Et]].
  unfold Rel. rewrite Eb, Et.
  destruct (Spec.absPath lt =? Spec.absPath lb); [eexists; reflexivity|].
  replace (Spec.absPath lb =? ".") with false by reflexivity.
  replace (GoStrings.HasPrefix (Spec.absPath lb) "/") with true
    by (symmetry; apply GoStringsFacts.HasPrefix_spec; eexists; reflexivity).
  replace (GoStrings.HasPrefix (Spec.absPath lt) "/") with true
    by (symmetry; apply GoStringsFacts.HasPrefix_spec; eexists; reflexivity).
  cbn [Bool.eqb negb].
  pose proof (relLoop_absPath (S (String.length (Spec.absPath lb))) lb
                (Spec.absPath lt) Hlb) as Hne.
  destruct (relLoop _ _ _) as [[be brest] trest]. cbn [fst] in Hne.
  apply String.eqb_neq in Hne. rewrite Hne.
  destruct (negb (brest =? "")); eexists; reflexivity.
Qed.

End FilepathFacts.

(** ** The generator *)
Module ConfgenFacts.
Import Confgen.

Lemma concat_plus_step (a w : string) (more : list string) :
  String.concat " + " ((a ++ " + " ++ w) :: more) =
  a ++ " + " ++ String.concat " + " (w :: more).
Proof.
  destruct more as [|m ms]; [reflexivity|].
  cbn [String.concat]. now rewrite !append_assoc.
Qed.

(** The loop of [WriteLine] joins the value tokens with [" + "]. *)
Lemma valueExpr_concat (more : list string) :
  forall v, valueExpr v more = String.concat " + " (v :: more).
Proof.
  unfold valueExpr.
  induction more as [|w more IH]; intros v; [reflexivity|].
  cbn [fold_left]. rewrite IH. apply concat_plus_step.
Qed.

(** A recognized entry has a marker, a name and at least one value token. *)
Lemma recognized_words (d : Define) :
  recognized d = true ->
  exists more,
    Words d = "#define" :: name d :: value d :: more /\
    Spec.valueTokens d = value d :: more.
Proof.
  unfold recognized, name, value, Spec.valueTokens.
  destruct d as [ws]; cbn [Words].
  rewrite andb_true_iff, Nat.ltb_lt, String.eqb_eq.
  destruct ws as [|m [|n [|v more]]]; cbn [List.length nth]; intros [Hlen Hm];
    try lia.
  subst m. exists more. split; reflexivity.
Qed.

(** A line is recognized exactly when its first field is [#define] and it
    has at least three fields. *)
Lemma recognized_line (l : string) :
  recognized (parseLine l) = true <->
  exists n v more, GoStrings.Fields l = "#define" :: n :: v :: more.
Proof.
  split.
  - intros H. destruct (recognized_words _ H) as [more [Hw _]].
    exists (name (parseLine l)), (value (parseLine l)), more. exact Hw.
  - intros [n [v [more H]]]. unfold recognized, parseLine. cbn [Words].
    rewrite H. reflexivity.
Qed.

Lemma WriteLine_recognized (d : Define) :
  recognized d = true -> exists decl, WriteLine d = Some decl.
Proof.
  intros H. destruct (recognized_words d H) as [more [Hw _]].
  unfold WriteLine. rewrite Hw.
  destruct (isRelocatable (name d)); [eexists; reflexivity|].
  destruct (name d =? "APPTAINER_SUID_INSTALL"); [eexists; reflexivity|].
  destruct (GoStrings.Contains _ _); eexists; reflexivity.
Qed.


(** A declaration that starts with the keyword [var] is a variable and not a
    constant. *)
Lemma var_decl (rest : string) :
  Spec.isVar ("var " ++ rest) = true /\ Spec.isConst ("var " ++ rest) = false.
Proof.
  split; [|reflexivity].
  apply GoStringsFacts.HasPrefix_spec. exists rest. reflexivity.
Qed.

End ConfgenFacts.

(** C4. An entry whose name is one of the six relocatable names [BINDIR],
    [LIBEXECDIR], [SYSCONFDIR], [SESSIONDIR], [APPTAINER_CONFDIR] and
    [PLUGIN_ROOTDIR] is rendered as a [var] initialised by [relocatePath]
    applied to the entry's value expression; an entry named
    [APPTAINER_SUID_INSTALL] is rendered as
    [var APPTAINER_SUID_INSTALL = isSuidInstall()], whatever its value
    tokens; in both cases the declaration is a variable and not a
    constant. *)
Theorem WriteLine_relocatable_and_suid (d : Confgen.Define) :
  Confgen.recognized d = true ->
  (Confgen.name d = "BINDIR" \/ Confgen.name d = "LIBEXECDIR" \/
   Confgen.name d = "SYSCONFDIR" \/ Confgen.name d = "SESSIONDIR" \/
   Confgen.name d = "APPTAINER_CONFDIR" \/
   Confgen.name d = "PLUGIN_ROOTDIR" ->
   exists decl,
     Confgen.WriteLine d = Some decl /\
     decl = "var " ++ Confgen.name d ++ " = relocatePath(" ++
            Spec.joinedValue d ++ ")" /\
     Spec.isVar decl = true /\ Spec.isConst decl = false) /\
  (Confgen.name d = "APPTAINER_SUID_INSTALL" ->
   exists decl,
     Confgen.WriteLine d = Some decl /\
     decl = "var APPTAINER_SUID_INSTALL = isSuidInstall()" /\
     Spec.isVar decl = true /\ Spec.isConst decl = false).
Proof.
  intros Hrec.
  destruct (ConfgenFacts.recognized_words d Hrec) as [more [Hw Hv]].
  split.
  - intros Hname.
    assert (Hin : Confgen.isRelocatable (Confgen.name d) = true)
      by (destruct Hname as [H|[H|[H|[H|[H|H]]]]]; rewrite H; reflexivity).
    eexists. split; [|split; [reflexivity|apply ConfgenFacts.var_decl]].
    unfold Confgen.WriteLine, Spec.joinedValue.
    rewrite Hw, Hv, Hin, ConfgenFacts.valueExpr_concat. reflexivity.
  - intros Hname.
    eexists. split; [|split; [reflexivity|split; reflexivity]].
    unfold Confgen.WriteLine. rewrite Hw, Hname. reflexivity.
Qed.

Lemma WriteLine_relocatable_and_suid_witness :
  Confgen.WriteLine Sample.bindir =
    Some ("var BINDIR = relocatePath(" ++ Sample.quoted "/usr/bin" ++ ")") /\
  Confgen.WriteLine {| Confgen.Words := ["#define"; "LIBEXECDIR"; "EXEC_PREFIX"] |} =
    Some "var LIBEXECDIR = relocatePath(EXEC_PREFIX)" /\
  Confgen.WriteLine {| Confgen.Words := ["#define"; "SYSCONFDIR"; "ETC"] |} =
    Some "var SYSCONFDIR = relocatePath(ETC)" /\
  Confgen.WriteLine Sample.sessiondir =
    Some ("var SESSIONDIR = relocatePath(LOCALSTATEDIR + " ++
          Sample.quoted "/apptainer/mnt/session" ++ ")") /\
  Confgen.WriteLine
    {| Confgen.Words := ["#define"; "APPTAINER_CONFDIR"; "SYSCONFDIR"; "SUB"] |} =
    Some "var APPTAINER_CONFDIR = relocatePath(SYSCONFDIR + SUB)" /\
  Confgen.WriteLine {| Confgen.Words := ["#define"; "PLUGIN_ROOTDIR"; "P"] |} =
    Some "var PLUGIN_ROOTDIR = relocatePath(P)" /\
  Confgen.WriteLine Sample.suid_install =
    Some "var APPTAINER_SUID_INSTALL = isSuidInstall()".
Proof.
  split; [|split; [|split; [|split; [|split; [|split]]]]].
  - destruct (proj1 (WriteLine_relocatable_and_suid Sample.bindir eq_refl))
      as [decl [H1 [H2 _]]];
      [left; reflexivity | rewrite H1, H2; reflexivity].
  - destruct (proj1 (WriteLine_relocatable_and_suid
                       {| Confgen.Words := ["#define"; "LIBEXECDIR"; "EXEC_PREFIX"] |}
                       eq_refl))
      as [decl [H1 [H2 _]]];
      [right; left; reflexivity | rewrite H1, H2; reflexivity].
  - destruct (proj1 (WriteLine_relocatable_and_suid
                       {| Confgen.Words := ["#define"; "SYSCONFDIR"; "ETC"] |}
                       eq_refl))
      as [decl [H1 [H2 _]]];
      [right; right; left; reflexivity | rewrite H1, H2; reflexivity].
  - destruct (proj1 (WriteLine_relocatable_and_suid Sample.sessiondir eq_refl))
      as [decl [H1 [H2 _]]];
      [right; right; right; left; reflexivity | rewrite H1, H2; reflexivity].
  - destruct (proj1 (WriteLine_relocatable_and_suid
                       {| Confgen.Words :=
                            ["#define"; "APPTAINER_CONFDIR"; "SYSCONFDIR"; "SUB"] |}
                       eq_refl))
      as [decl [H1 [H2 _]]];
      [right; right; right; right; left; reflexivity
      | rewrite H1, H2; reflexivity].
  - destruct (proj1 (WriteLine_relocatable_and_suid
                       {| Confgen.Words := ["#define"; "PLUGIN_ROOTDIR"; "P"] |}
                       eq_refl))
      as [decl [H1 [H2 _]]];
      [right; right; right; right; right; reflexivity
      | rewrite H1, H2; reflexivity].
  - destruct (proj2 (WriteLine_relocatable_and_suid Sample.suid_install eq_refl))
      as [decl [H1 [H2 _]]];
      [reflexivity | rewrite H1, H2; reflexivity].
Defined.



(** ** The extractor *)
Module ExtractFacts.
Import Confgen.

Lemma entries_cons (l : string) (rest : list string) :
  Spec.entries (l :: rest) =
  if recognized (parseLine l) then parseLine l :: Spec.entries rest
  else Spec.entries rest.
Proof. reflexivity. Qed.

(** The scanning loop, in closed form: it stops at a malformed [PREFIX]
    entry, and otherwise appends the entries of the lines to [header] and
    leaves in [prefix] the value token of the last [PREFIX] entry. *)
Lemma scan_spec (lines : list string) :
  forall header prefix,
    scan lines header prefix =
    if existsb Spec.malformedPrefix (Spec.entries lines)
    then Fatal msgPrefixElements
    else Returned ((header ++ Spec.entries lines)%list,
                   Spec.prefixToken (Spec.entries lines) prefix).
Proof.
  induction lines as [|l rest IH]; intros header prefix.
  - cbn. now rewrite app_nil_r.
  - cbn [scan]. rewrite entries_cons.
    destruct (recognized (parseLine l)) eqn:Hrec; [|apply IH].
    cbn [existsb]. unfold Spec.malformedPrefix at 1, Spec.isPrefixEntry.
    destruct (name (parseLine l) =? "PREFIX") eqn:Hname; cbn [andb orb].
    + destruct (negb (List.length (Words (parseLine l)) =? 3)%nat);
        [reflexivity|].
      cbn [orb]. rewrite IH, <- app_assoc. cbn [app].
      unfold Spec.prefixToken at 2. cbn [fold_left].
      unfold Spec.isPrefixEntry. rewrite Hname. reflexivity.
    + rewrite IH, <- app_assoc. cbn [app].
      unfold Spec.prefixToken at 2. cbn [fold_left].
      unfold Spec.isPrefixEntry. rewrite Hname. reflexivity.
Qed.

Lemma header_synthetic (header : list Define) (env : option string) :
  (if negb (os_Getenv env =? "")
   then (header ++ [buildTagsDefine (os_Getenv env)])%list
   else header) = (header ++ Spec.synthetic env)%list.
Proof.
  destruct env as [tags|]; cbn [os_Getenv Spec.synthetic].
  - destruct (tags =? ""); cbn [negb]; [now rewrite app_nil_r | reflexivity].
  - cbn. now rewrite app_nil_r.
Qed.

(** Lines 196 to 224, in closed form. *)
Lemma extract_spec (lines : list string) (env : option string) :
  extract lines env =
  if existsb Spec.malformedPrefix (Spec.entries lines)
  then Fatal msgPrefixElements
  else if Spec.prefixToken (Spec.entries lines) "" =? ""
  then Fatal msgPrefixMissing
  else Returned ((Spec.entries lines ++ Spec.synthetic env)%list,
                 Spec.prefixToken (Spec.entries lines) "").
Proof.
  unfold extract. rewrite scan_spec.
  destruct (existsb _ _); [reflexivity|].
  destruct (_ =? ""); [reflexivity|].
  cbn [app]. now rewrite header_synthetic.
Qed.

Lemma entries_In (lines : list string) (d : Define) :
  In d (Spec.entries lines) ->
  recognized d = true /\ exists l, In l lines /\ d = parseLine l.
Proof.
  unfold Spec.entries. rewrite filter_In, in_map_iff.
  intros [[l [Hl Hin]] Hrec]. split; [assumption|]. exists l. now split.
Qed.

(** The value token of an entry is never empty. *)
Lemma entries_value_nonempty (lines : list string) (d : Define) :
  In d (Spec.entries lines) -> value d <> "".
Proof.
  intros H. apply entries_In in H. destruct H as [Hrec [l [_ ->]]].
  unfold recognized in Hrec. apply andb_true_iff in Hrec.
  destruct Hrec as [Hlen _]. apply Nat.ltb_lt in Hlen.
  apply (GoStringsFacts.Fields_nonempty l).
  unfold value, parseLine in *. cbn [Words] in *.
  apply nth_In. exact Hlen.
Qed.

Lemma prefixToken_none (es : list Define) :
  forall dflt,
    existsb Spec.isPrefixEntry es = false -> Spec.prefixToken es dflt = dflt.
Proof.
  induction es as [|e es IH]; intros dflt; [reflexivity|].
  cbn [existsb]. rewrite orb_false_iff. intros [He Hes].
  unfold Spec.prefixToken. cbn [fold_left]. rewrite He. now apply IH.
Qed.

Lemma prefixToken_nonempty (es : list Define) :
  (forall d, In d es -> value d <> "") ->
  forall dflt,
    existsb Spec.isPrefixEntry es = true \/ dflt <> "" ->
    Spec.prefixToken es dflt <> "".
Proof.
  induction es as [|e es IH]; intros Hval dflt H.
  - cbn in *. destruct H as [H|H]; [discriminate | exact H].
  - unfold Spec.prefixToken. cbn [fold_left].
    apply IH; [intros d Hd; apply Hval; now right|].
    cbn [existsb] in H.
    destruct (Spec.isPrefixEntry e) eqn:He.
    + right. apply Hval. now left.
    + cbn [orb] in H. exact H.
Qed.

Lemma prefixToken_single (es : list Define) (d : Define) :
  forall dflt,
    filter Spec.isPrefixEntry es = [d] -> Spec.prefixToken es dflt = value d.
Proof.
  induction es as [|e es IH]; intros dflt; [discriminate|].
  cbn [filter]. unfold Spec.prefixToken. cbn [fold_left].
  destruct (Spec.isPrefixEntry e) eqn:He.
  - intros H. inversion H as [[Hd Hrest]]. subst e.
    apply prefixToken_none.
    destruct (existsb Spec.isPrefixEntry es) eqn:E; [|reflexivity].
    apply existsb_exists in E. destruct E as [x [Hx Hp]].
    assert (Hin : In x (filter Spec.isPrefixEntry es))
      by (apply filter_In; now split).
    rewrite Hrest in Hin. destruct Hin.
  - apply IH.
Qed.

Lemma malformed_iff (es : list Define) :
  existsb Spec.malformedPrefix es = true <->
  exists d, In d es /\ name d = "PREFIX" /\ List.length (Words d) <> 3.
Proof.
  rewrite existsb_exists. unfold Spec.malformedPrefix, Spec.isPrefixEntry.
  split; intros [d [Hin H]]; exists d; (split; [assumption|]).
  - apply andb_true_iff in H. destruct H as [Hn Hl].
    apply String.eqb_eq in Hn. apply negb_true_iff, Nat.eqb_neq in Hl.
    now split.
  - destruct H as [Hn Hl]. apply andb_true_iff. split.
    + now apply String.eqb_eq.
    + now apply negb_true_iff, Nat.eqb_neq.
Qed.

Lemma isPrefix_iff (es : list Define) :
  existsb Spec.isPrefixEntry es = true <->
  exists d, In d es /\ name d = "PREFIX".
Proof.
  rewrite existsb_exists. unfold Spec.isPrefixEntry.
  split; intros [d [Hin H]]; exists d; (split; [assumption|]);
    now apply String.eqb_eq.
Qed.

(** Every entry handed to the template has its three words. *)
Lemma extract_recognized (lines : list string) (env : option string)
      (header : list Define) (prefix : string) :
  extract lines env = Returned (header, prefix) ->
  Forall (fun d => recognized d = true) header.
Proof.
  rewrite extract_spec.
  destruct (existsb _ _); [discriminate|].
  destruct (_ =? ""); [discriminate|].
  intros H. inversion H. subst. apply Forall_app. split.
  - apply Forall_forall. intros d Hd. now apply entries_In in Hd.
  - destruct env as [tags|]; cbn; [|constructor].
    destruct (tags =? ""); constructor; [reflexivity | constructor].
Qed.

Lemma renderDefines_total (header : list Define) :
  Forall (fun d => recognized d = true) header ->
  exists decls, renderDefines header = Some decls.
Proof.
  induction 1 as [|d rest Hd _ IH]; [exists []; reflexivity|].
  destruct (ConfgenFacts.WriteLine_recognized d Hd) as [decl Hdecl].
  destruct IH as [decls Hdecls].
  exists (decl :: decls). cbn [renderDefines]. now rewrite Hdecl, Hdecls.
Qed.

Lemma goSlice_strip (s : string) :
  2 <= String.length s ->
  goSlice s 1 (Z.of_nat (String.length s) - 1) =
  Some (String.substring 1 (String.length s - 2) s).
Proof.
  intros H. unfold goSlice.
  replace ((0 <=? 1)%Z) with true by reflexivity.
  replace ((1 <=? Z.of_nat (String.length s) - 1)%Z) with true
    by (symmetry; apply Z.leb_le; lia).
  replace ((Z.of_nat (String.length s) - 1 <=? Z.of_nat (String.length s))%Z)
    with true by (symmetry; apply Z.leb_le; lia).
  cbn [andb]. do 2 f_equal; lia.
Qed.

Lemma goSlice_short (s : string) :
  String.length s = 1 -> goSlice s 1 (Z.of_nat (String.length s) - 1) = None.
Proof. intros H. unfold goSlice. rewrite H. reflexivity. Qed.

End ExtractFacts.

(** C6, amended.  The entries of an input are the parsed lines whose first
    field is [#define] and that have at least three fields.  On every input
    on which the two [PREFIX] checks pass (every recognized [PREFIX] entry
    has three tokens and there is one), the extractor returns exactly these
    entries, in input order and without deduplication, followed by the
    synthetic [GO_BUILD_TAGS] entry exactly when the override is set and not
    empty. *)
Theorem extract_entries (lines : list string) (env : option string) :
  (forall d, In d (Spec.entries lines) <->
     exists l, In l lines /\ d = Confgen.parseLine l /\
       exists n v more, GoStrings.Fields l = "#define" :: n :: v :: more) /\
  ((forall d, In d (Spec.entries lines) -> Confgen.name d = "PREFIX" ->
              List.length (Confgen.Words d) = 3) ->
   (exists d, In d (Spec.entries lines) /\ Confgen.name d = "PREFIX") ->
   exists prefix,
     Confgen.extract lines env =
     Returned ((Spec.entries lines ++ Spec.synthetic env)%list, prefix)).
Proof.
  split.
  - intros d. unfold Spec.entries. rewrite filter_In, in_map_iff. split.
    + intros [[l [<- Hin]] Hrec]. exists l. split; [assumption|].
      split; [reflexivity|]. now apply ConfgenFacts.recognized_line.
    + intros [l [Hin [-> Hf]]]. split; [now exists l|].
      now apply ConfgenFacts.recognized_line.
  - intros Hwell Hsome. rewrite ExtractFacts.extract_spec.
    destruct (existsb Spec.malformedPrefix _) eqn:Hm.
    + apply ExtractFacts.malformed_iff in Hm.
      destruct Hm as [d [Hin [Hn Hl]]]. elim Hl. now apply Hwell.
    + destruct (_ =? "") eqn:He; [|eexists; reflexivity].
      apply String.eqb_eq in He. exfalso.
      revert He. apply ExtractFacts.prefixToken_nonempty.
      * intros d. apply ExtractFacts.entries_value_nonempty.
      * left. now apply ExtractFacts.isPrefix_iff.
Qed.

Lemma extract_entries_witness :
  (forall d, In d (Spec.entries Sample.config_h) ->
             Confgen.name d = "PREFIX" -> List.length (Confgen.Words d) = 3) /\
  (exists d, In d (Spec.entries Sample.config_h) /\ Confgen.name d = "PREFIX") /\
  exists prefix,
    Confgen.extract Sample.config_h (Some "netgo") =
    Returned ((Spec.entries Sample.config_h ++
               [Confgen.buildTagsDefine "netgo"])%list, prefix).
Proof.
  assert (H1 : forall d, In d (Spec.entries Sample.config_h) ->
             Confgen.name d = "PREFIX" -> List.length (Confgen.Words d) = 3).
  { intros d Hd Hn. vm_compute in Hd.
    repeat (destruct Hd as [<-|Hd]; [first [reflexivity | discriminate Hn]|]).
    destruct Hd. }
  assert (H2 : exists d, In d (Spec.entries Sample.config_h) /\
                         Confgen.name d = "PREFIX").
  { exists (Confgen.parseLine ("#define PREFIX " ++ Sample.quoted "/usr")).
    split; [vm_compute; left; reflexivity | reflexivity]. }
  split; [exact H1 | split; [exact H2|]].
  exact (proj2 (extract_entries Sample.config_h (Some "netgo")) H1 H2).
Defined.

(** C6 as stated fails: the line is a recognized entry and the override is
    set, yet the extractor returns no entries at all, because the run is
    stopped for want of a [PREFIX] entry. *)
Lemma extract_without_prefix_counterexample :
  Spec.entries ["#define FOO 1"] =
    [{| Confgen.Words := ["#define"; "FOO"; "1"] |}] /\
  Confgen.extract ["#define FOO 1"] (Some "netgo") =
    Fatal Confgen.msgPrefixMissing.
Proof. split; reflexivity. Qed.

(** C7. The extraction is stopped by [sylog.Fatalf] when a recognized entry
    named [PREFIX] does not have exactly three tokens, and, after all lines
    are scanned, when there is no [PREFIX] entry; with exactly one [PREFIX]
    entry, of three tokens, it is not stopped and the prefix is that entry's
    value token. *)
Theorem prefix_checks (lines : list string) (env : option string) :
  (forall d, In d (Spec.entries lines) -> Confgen.name d = "PREFIX" ->
             List.length (Confgen.Words d) <> 3 ->
             Confgen.extract lines env = Fatal Confgen.msgPrefixElements) /\
  ((forall d, In d (Spec.entries lines) -> Confgen.name d <> "PREFIX") ->
   Confgen.extract lines env = Fatal Confgen.msgPrefixMissing) /\
  (forall d, filter Spec.isPrefixEntry (Spec.entries lines) = [d] ->
             List.length (Confgen.Words d) = 3 ->
             Confgen.extract lines env =
             Returned ((Spec.entries lines ++ Spec.synthetic env)%list,
                       Confgen.value d)).
Proof.
  rewrite ExtractFacts.extract_spec. repeat split.
  - intros d Hin Hn Hl.
    assert (Hm : existsb Spec.malformedPrefix (Spec.entries lines) = true)
      by (apply ExtractFacts.malformed_iff; exists d; auto).
    now rewrite Hm.
  - intros Hnone.
    destruct (existsb Spec.malformedPrefix _) eqn:Hm.
    + apply ExtractFacts.malformed_iff in Hm.
      destruct Hm as [d [Hin [Hn _]]]. now elim (Hnone d Hin).
    + rewrite ExtractFacts.prefixToken_none; [reflexivity|].
      destruct (existsb Spec.isPrefixEntry _) eqn:Hp; [|reflexivity].
      apply ExtractFacts.isPrefix_iff in Hp.
      destruct Hp as [d [Hin Hn]]. now elim (Hnone d Hin).
  - intros d Hone Hlen.
    assert (Hd : In d (Spec.entries lines)).
    { eapply (proj1 (filter_In Spec.isPrefixEntry d _)).
      rewrite Hone. now left. }
    destruct (existsb Spec.malformedPrefix _) eqn:Hm.
    + apply ExtractFacts.malformed_iff in Hm.
      destruct Hm as [e [Hin [Hn Hl]]]. exfalso. apply Hl.
      assert (He : In e (filter Spec.isPrefixEntry (Spec.entries lines))).
      { apply filter_In. split; [assumption|].
        unfold Spec.isPrefixEntry. now apply String.eqb_eq. }
      rewrite Hone in He. destruct He as [<-|[]]. exact Hlen.
    + rewrite (ExtractFacts.prefixToken_single _ d "" Hone).
      destruct (Confgen.value d =? "") eqn:He; [|reflexivity].
      apply String.eqb_eq in He.
      now elim (ExtractFacts.entries_value_nonempty lines d Hd).
Qed.

Lemma prefix_checks_witness :
  Confgen.extract ["#define PREFIX a b"; "#define FOO 1"] None =
    Fatal Confgen.msgPrefixElements /\
  Confgen.extract ["#define FOO 1"; "#define PREFIX"] None =
    Fatal Confgen.msgPrefixMissing /\
  Confgen.extract Sample.config_h None =
    Returned (Spec.entries Sample.config_h, Sample.quoted "/usr").
Proof.
  split; [|split].
  - apply (proj1 (prefix_checks ["#define PREFIX a b"; "#define FOO 1"] None)
             {| Confgen.Words := ["#define"; "PREFIX"; "a"; "b"] |}).
    + vm_compute. left. reflexivity.
    + reflexivity.
    + vm_compute. discriminate.
  - apply (proj1 (proj2 (prefix_checks ["#define FOO 1"; "#define PREFIX"] None))).
    intros d Hd. vm_compute in Hd. destruct Hd as [<-|[]].
    vm_compute. discriminate.
  - rewrite <- (app_nil_r (Spec.entries Sample.config_h)) at 1.
    apply (proj2 (proj2 (prefix_checks Sample.config_h None))
             (Confgen.parseLine ("#define PREFIX " ++ Sample.quoted "/usr"))).
    + vm_compute. reflexivity.
    + vm_compute. reflexivity.
Defined.

(** ** Runs of [main] *)
Module MainFacts.
Import Confgen.

(** [main] once [config.go] is created and the lines are read. *)
Lemma main_after_read (w : World) (path : string) (lines : list string) :
  os_Create w = None ->
  nth_error (os_Args w) 1 = Some path ->
  inFile w path = inr lines ->
  main w =
  match extract lines (GO_BUILD_TAGS w) with
  | Fatal msg => {| status := statusFatal; printed := [msg]; config_go := None |}
  | Panic msg => {| status := statusPanic; printed := [msg]; config_go := None |}
  | Returned (header, prefix) =>
    match goSlice prefix 1 (Z.of_nat (String.length prefix) - 1) with
    | None =>
      {| status := statusPanic; printed := [msgSlice]; config_go := None |}
    | Some p =>
      match Execute w p header with
      | inl err =>
        {| status := statusReturn; printed := [err]; config_go := None |}
      | inr g =>
        {| status := statusReturn; printed := []; config_go := Some g |}
      end
    end
  end.
Proof. intros Hc Ha Hr. unfold main. now rewrite Hc, Ha, Hr. Qed.

(** On the entries of the extractor the template cannot fail to render:
    [Execute] fails only when the write does. *)
Lemma Execute_extracted (w : World) (lines : list string)
      (header : list Define) (prefix p : string) :
  extract lines (GO_BUILD_TAGS w) = Returned (header, prefix) ->
  exists decls,
    renderDefines header = Some decls /\
    Execute w p header =
    match outFile_Write w with
    | Some err => inl err
    | None => inr {| gPrefix := p; gDecls := decls |}
    end.
Proof.
  intros He. apply ExtractFacts.extract_recognized in He.
  destruct (ExtractFacts.renderDefines_total header He) as [decls Hd].
  exists decls. split; [assumption|]. unfold Execute. now rewrite Hd.
Qed.

Lemma extract_prefix_nonempty (lines : list string) (env : option string)
      (header : list Define) (prefix : string) :
  extract lines env = Returned (header, prefix) -> String.length prefix <> 0.
Proof.
  rewrite ExtractFacts.extract_spec.
  destruct (existsb _ _); [discriminate|].
  destruct (_ =? "") eqn:He; [discriminate|].
  intros H. inversion H. subst. apply String.eqb_neq in He.
  destruct (Spec.prefixToken _ _); [congruence | discriminate].
Qed.

(** The scenario of the specification: [PREFIX], [BINDIR] and [FOO]. *)
Example main_scenario :
  main (Sample.genWorld
          ["#define PREFIX " ++ Sample.quoted "/usr";
           "#define BINDIR " ++ Sample.quoted "/usr/bin";
           "#define FOO " ++ Sample.quoted "/usr/local"] None) =
  {| status := 0%Z; printed := [];
     config_go :=
       Some {| gPrefix := "/usr";
               gDecls :=
                 ["const PREFIX = " ++ Sample.quoted "/usr";
                  "var BINDIR = relocatePath(" ++ Sample.quoted "/usr/bin" ++ ")";
                  "const FOO = " ++ Sample.quoted "/usr/local"] |} |}.
Proof. reflexivity. Qed.

(** Entries with the same name are all kept, in input order; the last
    [PREFIX] entry gives the prefix. *)
Example extract_duplicates :
  extract ["#define PREFIX a"; "#define X 1"; "#define PREFIX b";
           "#define X 1"] None =
  Returned ([{| Words := ["#define"; "PREFIX"; "a"] |};
             {| Words := ["#define"; "X"; "1"] |};
             {| Words := ["#define"; "PREFIX"; "b"] |};
             {| Words := ["#define"; "X"; "1"] |}], "b").
Proof. reflexivity. Qed.

End MainFacts.

(** C8. What [main] does on the fatal conditions.  A missing or malformed
    [PREFIX] entry stops the generator at once through [sylog.Fatalf], with
    a non-zero status and the diagnostic, as the claim says.  When
    [config.go] cannot be created, when the input cannot be read and when
    writing the output fails, the generator prints the error and [main]
    returns at once: the process ends without output but with status zero,
    where the claim requires a non-zero status.  Rendering the template
    cannot fail on extracted entries. *)
Theorem main_error_paths (w : Confgen.World) :
  (forall err, Confgen.os_Create w = Some err ->
     Confgen.main w =
     {| Confgen.status := 0%Z; Confgen.printed := [err];
        Confgen.config_go := None |}) /\
  (forall path, Confgen.os_Create w = None ->
     nth_error (Confgen.os_Args w) 1 = Some path ->
     (forall err, Confgen.inFile w path = inl err ->
        Confgen.main w =
        {| Confgen.status := 0%Z; Confgen.printed := [err];
           Confgen.config_go := None |}) /\
     (forall lines, Confgen.inFile w path = inr lines ->
        (forall msg,
           Confgen.extract lines (Confgen.GO_BUILD_TAGS w) = Fatal msg ->
           Confgen.main w =
           {| Confgen.status := statusFatal; Confgen.printed := [msg];
              Confgen.config_go := None |} /\
           statusFatal <> 0%Z /\
           (msg = Confgen.msgPrefixElements \/ msg = Confgen.msgPrefixMissing)) /\
        (forall header prefix,
           Confgen.extract lines (Confgen.GO_BUILD_TAGS w) =
           Returned (header, prefix) ->
           Confgen.renderDefines header <> None /\
           (2 <= String.length prefix ->
            forall err, Confgen.outFile_Write w = Some err ->
              Confgen.main w =
              {| Confgen.status := 0%Z; Confgen.printed := [err];
                 Confgen.config_go := None |})))).
Proof.
  split.
  - intros err Hc. unfold Confgen.main. now rewrite Hc.
  - intros path Hc Ha. split.
    + intros err Hr. unfold Confgen.main. now rewrite Hc, Ha, Hr.
    + intros lines Hr. split.
      * intros msg He. rewrite (MainFacts.main_after_read w path lines Hc Ha Hr).
        rewrite He. split; [reflexivity|]. split; [discriminate|].
        rewrite ExtractFacts.extract_spec in He.
        destruct (existsb _ _); [left; congruence|].
        destruct (_ =? ""); [right; congruence | discriminate].
      * intros header prefix He.
        destruct (MainFacts.Execute_extracted w lines header prefix
                    (String.substring 1 (String.length prefix - 2) prefix) He)
          as [decls [Hd Hx]].
        split; [congruence|]. intros Hlen err Hw.
        rewrite (MainFacts.main_after_read w path lines Hc Ha Hr), He.
        rewrite (ExtractFacts.goSlice_strip prefix Hlen), Hx, Hw. reflexivity.
Qed.

Lemma main_error_paths_witness :
  Confgen.main Sample.readFails =
    {| Confgen.status := 0%Z;
       Confgen.printed := ["open config.h: no such file or directory"];
       Confgen.config_go := None |} /\
  Confgen.main (Sample.genWorld ["#define PREFIX a b"] None) =
    {| Confgen.status := 255%Z;
       Confgen.printed := ["Expected PREFIX to contain 3 elements"];
       Confgen.config_go := None |} /\
  Confgen.main Sample.writeFails =
    {| Confgen.status := 0%Z;
       Confgen.printed := ["write config.go: no space left on device"];
       Confgen.config_go := None |}.
Proof.
  split; [|split].
  - apply (proj1 (proj2 (main_error_paths Sample.readFails) "config.h"
                    eq_refl eq_refl)).
    reflexivity.
  - apply (proj1 (proj2 (proj2 (main_error_paths
             (Sample.genWorld ["#define PREFIX a b"] None)) "config.h"
             eq_refl eq_refl) ["#define PREFIX a b"] eq_refl)).
    reflexivity.
  - apply (proj2 (proj2 (proj2 (proj2 (main_error_paths Sample.writeFails)
             "config.h" eq_refl eq_refl) Sample.config_h eq_refl)
             (Spec.entries Sample.config_h) (Sample.quoted "/usr") eq_refl)).
    + vm_compute. lia.
    + reflexivity.
Defined.

(** The run in which [config.go] cannot be created: the error is printed
    and the exit status is zero. *)
Lemma main_create_error_exit_zero :
  Confgen.os_Create Sample.createFails =
    Some "open config.go: permission denied" /\
  Confgen.status (Confgen.main Sample.createFails) = 0%Z /\
  Confgen.printed (Confgen.main Sample.createFails) =
    ["open config.go: permission denied"].
Proof. repeat split. Qed.

(** C10. The prefix token is sliced as [prefix[1 : len(prefix)-1]] without a
    check of its length.  A token of one byte passes the [PREFIX] checks and
    makes the slice bounds invalid: [main] panics, where no diagnostic of
    [sylog.Fatalf] is printed.  With a token of at least two bytes the slice
    is the token without its first and last byte and [main] returns. *)
Theorem prefix_slice (w : Confgen.World) (path : string)
        (lines : list string) (header : list Confgen.Define) (prefix : string) :
  Confgen.os_Create w = None ->
  nth_error (Confgen.os_Args w) 1 = Some path ->
  Confgen.inFile w path = inr lines ->
  Confgen.extract lines (Confgen.GO_BUILD_TAGS w) = Returned (header, prefix) ->
  (String.length prefix = 1 ->
   Confgen.main w =
   {| Confgen.status := statusPanic; Confgen.printed := [Confgen.msgSlice];
      Confgen.config_go := None |}) /\
  (2 <= String.length prefix ->
   Confgen.status (Confgen.main w) = statusReturn /\
   (Confgen.outFile_Write w = None ->
    exists decls,
      Confgen.renderDefines header = Some decls /\
      Confgen.main w =
      {| Confgen.status := statusReturn; Confgen.printed := [];
         Confgen.config_go :=
           Some {| Confgen.gPrefix :=
                     String.substring 1 (String.length prefix - 2) prefix;
                   Confgen.gDecls := decls |} |})) /\
  (String.length prefix = 1 \/ 2 <= String.length prefix).
Proof.
  intros Hc Ha Hr He.
  rewrite (MainFacts.main_after_read w path lines Hc Ha Hr), He.
  split; [|split].
  - intros H1. now rewrite (ExtractFacts.goSlice_short prefix H1).
  - intros H2. rewrite (ExtractFacts.goSlice_strip prefix H2).
    destruct (MainFacts.Execute_extracted w lines header prefix
                (String.substring 1 (String.length prefix - 2) prefix) He)
      as [decls [Hd Hx]].
    rewrite Hx. split.
    + destruct (Confgen.outFile_Write w); reflexivity.
    + intros Hw. exists decls. split; [assumption|]. now rewrite Hw.
  - pose proof (MainFacts.extract_prefix_nonempty _ _ _ _ He). lia.
Qed.

Lemma prefix_slice_witness :
  Confgen.main (Sample.genWorld ["#define PREFIX x"] None) =
    {| Confgen.status := 2%Z; Confgen.printed := [Confgen.msgSlice];
       Confgen.config_go := None |} /\
  Confgen.status (Confgen.main (Sample.genWorld Sample.config_h None)) = 0%Z.
Proof.
  split.
  - apply (proj1 (prefix_slice (Sample.genWorld ["#define PREFIX x"] None)
                    "config.h" ["#define PREFIX x"]
                    [{| Confgen.Words := ["#define"; "PREFIX"; "x"] |}] "x"
                    eq_refl eq_refl eq_refl eq_refl)).
    reflexivity.
  - apply (proj1 (proj2 (prefix_slice (Sample.genWorld Sample.config_h None)
                    "config.h" Sample.config_h
                    (Spec.entries Sample.config_h) (Sample.quoted "/usr")
                    eq_refl eq_refl eq_refl eq_refl))).
    vm_compute. lia.
Defined.

(** ** The generated runtime *)
Module BuildcfgFacts.
Import Buildcfg.

Section Runtime.
Variable Prefix : string.

(** The first call stores what the discovery finds. *)
Lemma getPrefix_first (w : World) (st : State) :
  prefixOnce st = false ->
  fst (getPrefix Prefix w st) = discoverPrefix Prefix w.
Proof. intros H. unfold getPrefix. now rewrite H. Qed.

(** Once the prefix is cached a call returns it and changes nothing,
    whatever the world has become. *)
Lemma getPrefix_cached (w : World) (st : State) :
  prefixOnce st = true -> getPrefix Prefix w st = (installPrefix st, st).
Proof. intros H. unfold getPrefix. now rewrite H. Qed.

Lemma getPrefix_done (w : World) (st : State) :
  prefixOnce (snd (getPrefix Prefix w st)) = true.
Proof. unfold getPrefix. destruct (prefixOnce st) eqn:E; [exact E | reflexivity]. Qed.

(** A second call, in any world, repeats the answer of the first. *)
Lemma getPrefix_again (w w' : World) (st : State) :
  getPrefix Prefix w' (snd (getPrefix Prefix w st)) =
  (fst (getPrefix Prefix w st), snd (getPrefix Prefix w st)).
Proof. rewrite getPrefix_cached; [reflexivity | apply getPrefix_done]. Qed.

Lemma isSuidInstall_cached (w : World) (st : State) :
  isSuidOnce st = true -> isSuidInstall Prefix w st = (suidInstall st, st).
Proof. intros H. unfold isSuidInstall. now rewrite H. Qed.

Lemma isSuidInstall_done (w : World) (st : State) :
  isSuidOnce (snd (isSuidInstall Prefix w st)) = true.
Proof.
  unfold isSuidInstall. destruct (isSuidOnce st) eqn:E; [exact E|].
  destruct (getPrefix Prefix w st). reflexivity.
Qed.

(** A second call, in any world, repeats the answer of the first. *)
Lemma isSuidInstall_again (w w' : World) (st : State) :
  isSuidInstall Prefix w' (snd (isSuidInstall Prefix w st)) =
  (fst (isSuidInstall Prefix w st), snd (isSuidInstall Prefix w st)).
Proof.
  rewrite isSuidInstall_cached; [|apply isSuidInstall_done].
  unfold isSuidInstall. destruct (isSuidOnce st); [reflexivity|].
  destruct (getPrefix Prefix w st). reflexivity.
Qed.

(** The domain test of [relocatePath], in the specification's vocabulary. *)
Lemma relocatePath_outside (w : World) (st : State) (original : string) :
  Spec.inDomain Prefix original = false ->
  relocatePath Prefix w st original = (Returned original, st).
Proof.
  unfold Spec.inDomain, relocatePath. intros H.
  destruct ((Prefix =? "") || (Prefix =? "/")); [reflexivity|].
  cbn [negb andb] in H.
  destruct (GoStrings.HasPrefix original Prefix); [discriminate|].
  cbn [orb negb] in *. now rewrite H.
Qed.

(** [relocatePath] on a path of the domain. *)
Lemma relocatePath_inside (w : World) (st : State) (original : string) :
  Spec.inDomain Prefix original = true ->
  relocatePath Prefix w st original =
  let (prefix, st1) := getPrefix Prefix w st in
  if prefix =? Prefix then (Returned original, st1)
  else
    let (suid, st2) := isSuidInstall Prefix w st1 in
    if (suid =? 1)%Z then (Fatal msgSuid, st2)
    else
      match Filepath.Rel (Spec.relativeTo Prefix original) original with
      | None =>
        (Fatal (Filepath.relError (Spec.relativeTo Prefix original) original),
         st2)
      | Some relativePath =>
        (Returned (Filepath.Join [prefix; relativePath]), st2)
      end.
Proof.
  unfold Spec.inDomain, Spec.relativeTo, relocatePath. intros H.
  destruct ((Prefix =? "") || (Prefix =? "/")); [discriminate|].
  cbn [negb andb] in H.
  destruct (GoStrings.HasPrefix original Prefix); cbn [negb orb] in *.
  - reflexivity.
  - now rewrite H.
Qed.

Lemma inDomain_false (original : string) :
  Spec.inDomain Prefix original = false <->
  (Prefix = "" \/ Prefix = "/") \/
  (GoStrings.HasPrefix original Prefix = false /\
   GoStrings.HasPrefix original "/etc/apptainer" = false /\
   GoStrings.HasPrefix original "/var/apptainer" = false).
Proof.
  unfold Spec.inDomain.
  rewrite andb_false_iff, negb_false_iff, !orb_false_iff, orb_true_iff,
    !String.eqb_eq.
  tauto.
Qed.

(** With the executable at [PREFIX/bin/apptainer] the discovery finds
    [PREFIX], for every absolute [PREFIX] in clean form. *)
Lemma discoverPrefix_frontend_layout (w : World) (l : list string) :
  Forall (fun x => Spec.plainElem x = true) l ->
  os_Executable w = Some (Spec.absPath (l ++ ["bin"; "apptainer"])) ->
  discoverPrefix Prefix w = Spec.absPath l.
Proof.
  intros Hl Hexe. unfold discoverPrefix. rewrite Hexe.
  change (l ++ ["bin"; "apptainer"])%list
    with (l ++ ["bin"] ++ ["apptainer"])%list.
  rewrite app_assoc.
  rewrite FilepathFacts.Base_absPath by reflexivity.
  cbn [String.eqb Ascii.eqb Bool.eqb].
  rewrite FilepathFacts.Dir_absPath;
    [|apply Forall_app; split; [assumption | repeat constructor] | reflexivity].
  apply FilepathFacts.Dir_absPath; [assumption | reflexivity].
Qed.

(** With the executable at [PREFIX/libexec/apptainer/bin/starter] or
    [PREFIX/libexec/apptainer/bin/starter-suid] the discovery finds
    [PREFIX]. *)
Lemma discoverPrefix_helper_layout (w : World) (l : list string)
      (helper : string) :
  Forall (fun x => Spec.plainElem x = true) l ->
  helper = "starter" \/ helper = "starter-suid" ->
  os_Executable w =
    Some (Spec.absPath (l ++ ["libexec"; "apptainer"; "bin"; helper])) ->
  discoverPrefix Prefix w = Spec.absPath l.
Proof.
  intros Hl Hh Hexe. unfold discoverPrefix. rewrite Hexe.
  change (l ++ ["libexec"; "apptainer"; "bin"; helper])%list
    with (l ++ ["libexec"] ++ ["apptainer"] ++ ["bin"] ++ [helper])%list.
  rewrite !app_assoc.
  assert (Hplain : Spec.plainElem helper = true)
    by (destruct Hh as [-> | ->]; reflexivity).
  assert (Hsep : Filepath.hasSep helper = false)
    by (destruct Hh as [-> | ->]; reflexivity).
  rewrite (FilepathFacts.Base_absPath _ helper Hplain).
  assert (Hbase : (helper =? "apptainer") = false /\
                  ((helper =? "starter") || (helper =? "starter-suid")) = true)
    by (destruct Hh as [-> | ->]; split; reflexivity).
  destruct Hbase as [-> ->].
  assert (H1 : Forall (fun x => Spec.plainElem x = true) (l ++ ["libexec"]))
    by (apply Forall_app; split; [assumption | repeat constructor]).
  assert (H2 : Forall (fun x => Spec.plainElem x = true)
                      ((l ++ ["libexec"]) ++ ["apptainer"]))
    by (apply Forall_app; split; [assumption | repeat constructor]).
  assert (H3 : Forall (fun x => Spec.plainElem x = true)
                      (((l ++ ["libexec"]) ++ ["apptainer"]) ++ ["bin"]))
    by (apply Forall_app; split; [assumption | repeat constructor]).
  rewrite (FilepathFacts.Dir_absPath _ helper H3 Hsep).
  rewrite (FilepathFacts.Dir_absPath _ "bin" H2 eq_refl).
  rewrite (FilepathFacts.Dir_absPath _ "apptainer" H1 eq_refl).
  apply (FilepathFacts.Dir_absPath _ "libexec" Hl eq_refl).
Qed.

(** With an absolute build-time prefix every path of the domain is absolute,
    and so is the directory it is taken relative to: the relative path can
    always be computed. *)
Lemma relativePath_absolute (original : string) :
  GoStrings.HasPrefix Prefix "/" = true ->
  Spec.inDomain Prefix original = true ->
  exists rel,
    Filepath.Rel (Spec.relativeTo Prefix original) original = Some rel.
Proof.
  intros Habs Hdom. apply FilepathFacts.Rel_rooted.
  - unfold Spec.relativeTo.
    destruct (GoStrings.HasPrefix original Prefix); [exact Habs | reflexivity].
  - unfold Spec.inDomain in Hdom. apply andb_true_iff in Hdom.
    destruct Hdom as [_ Hdom]. rewrite !orb_true_iff in Hdom.
    apply GoStringsFacts.HasPrefix_spec.
    destruct Hdom as [[H|H]|H]; apply GoStringsFacts.HasPrefix_spec in H;
      destruct H as [post ->].
    + apply GoStringsFacts.HasPrefix_spec in Habs. destruct Habs as [r ->].
      eexists. cbn [append]. reflexivity.
    + eexists. cbn [append]. reflexivity.
    + eexists. cbn [append]. reflexivity.
Qed.

(** With an absolute build-time prefix, a relocation that is not refused
    returns the join of the discovered prefix with the relative path. *)
Lemma relocatePath_absolute (w : World) (st : State) (original : string) :
  GoStrings.HasPrefix Prefix "/" = true ->
  Spec.inDomain Prefix original = true ->
  fst (getPrefix Prefix w st) <> Prefix ->
  fst (isSuidInstall Prefix w (snd (getPrefix Prefix w st))) <> 1%Z ->
  exists rel,
    Filepath.Rel (Spec.relativeTo Prefix original) original = Some rel /\
    fst (relocatePath Prefix w st original) =
    Returned (Filepath.Join [fst (getPrefix Prefix w st); rel]).
Proof.
  intros Habs Hdom Hp Hsuid.
  destruct (relativePath_absolute original Habs Hdom) as [rel Hrel].
  exists rel. split; [exact Hrel|].
  rewrite (relocatePath_inside w st original Hdom).
  destruct (getPrefix Prefix w st) as [p st1]. cbn [fst snd] in *.
  apply String.eqb_neq in Hp. rewrite Hp.
  destruct (isSuidInstall Prefix w st1) as [suid st2]. cbn [fst] in *.
  apply Z.eqb_neq in Hsuid. now rewrite Hsuid, Hrel.
Qed.

End Runtime.
End BuildcfgFacts.

(** C3. In prefix discovery (the first call of [getPrefix]): when the
    executable's base name is [apptainer] the installation prefix is the
    parent of the executable's directory; when it is [starter] or
    [starter-suid] the prefix is three levels above the executable's
    directory; for every other base name, and when [os.Executable] fails,
    it is the build-time prefix.  On the layouts the source assumes,
    [PREFIX/bin/apptainer] and [PREFIX/libexec/apptainer/bin/starter] (or
    [starter-suid]), the prefix found is [PREFIX]. *)
Theorem getPrefix_discovery (Prefix : string) (w : Buildcfg.World)
        (st : Buildcfg.State) :
  Buildcfg.prefixOnce st = false ->
  (Buildcfg.os_Executable w = None ->
   fst (Buildcfg.getPrefix Prefix w st) = Prefix) /\
  (forall exe, Buildcfg.os_Executable w = Some exe ->
     (Filepath.Base exe = "apptainer" ->
      fst (Buildcfg.getPrefix Prefix w st) =
      Spec.levelsUp 1 (Spec.executableDir exe)) /\
     (Filepath.Base exe = "starter" \/ Filepath.Base exe = "starter-suid" ->
      fst (Buildcfg.getPrefix Prefix w st) =
      Spec.levelsUp 3 (Spec.executableDir exe)) /\
     (Filepath.Base exe <> "apptainer" -> Filepath.Base exe <> "starter" ->
      Filepath.Base exe <> "starter-suid" ->
      fst (Buildcfg.getPrefix Prefix w st) = Prefix)) /\
  (forall l, Forall (fun e => Spec.plainElem e = true) l ->
     Buildcfg.os_Executable w =
       Some (Spec.absPath (l ++ ["bin"; "apptainer"])) ->
     fst (Buildcfg.getPrefix Prefix w st) = Spec.absPath l) /\
  (forall l helper, Forall (fun e => Spec.plainElem e = true) l ->
     helper = "starter" \/ helper = "starter-suid" ->
     Buildcfg.os_Executable w =
       Some (Spec.absPath (l ++ ["libexec"; "apptainer"; "bin"; helper])) ->
     fst (Buildcfg.getPrefix Prefix w st) = Spec.absPath l).
Proof.
  intros Hfresh. rewrite (BuildcfgFacts.getPrefix_first Prefix w st Hfresh).
  split; [|split; [|split]].
  - unfold Buildcfg.discoverPrefix. intros ->. reflexivity.
  - unfold Buildcfg.discoverPrefix, Spec.levelsUp, Spec.executableDir.
    intros exe ->. repeat split.
    + intros ->. reflexivity.
    + intros [-> | ->]; reflexivity.
    + intros H1 H2 H3.
      apply String.eqb_neq in H1, H2, H3. now rewrite H1, H2, H3.
  - intros l. apply BuildcfgFacts.discoverPrefix_frontend_layout.
  - intros l helper. apply BuildcfgFacts.discoverPrefix_helper_layout.
Qed.

Lemma getPrefix_discovery_witness :
  fst (Buildcfg.getPrefix "/usr" Sample.movedWorld Buildcfg.initial) =
    "/opt/app" /\
  fst (Buildcfg.getPrefix "/usr" Sample.starterWorld Buildcfg.initial) =
    "/opt/app" /\
  fst (Buildcfg.getPrefix "/usr" Sample.noExecutableWorld Buildcfg.initial) =
    "/usr".
Proof.
  split; [|split].
  - rewrite (proj1 (proj1 (proj2 (getPrefix_discovery "/usr" Sample.movedWorld
                             Buildcfg.initial eq_refl))
                      "/opt/app/bin/apptainer" eq_refl) eq_refl).
    reflexivity.
  - rewrite (proj1 (proj2 (proj1 (proj2 (getPrefix_discovery "/usr"
                             Sample.starterWorld Buildcfg.initial eq_refl))
                      "/opt/app/libexec/apptainer/bin/starter" eq_refl))
               (or_introl eq_refl)).
    reflexivity.
  - apply (proj1 (getPrefix_discovery "/usr" Sample.noExecutableWorld
                    Buildcfg.initial eq_refl) eq_refl).
Defined.

(** C1, amended.  For every call of [relocatePath] on a path of the
    relocation domain (the build-time prefix is neither empty nor the root
    and the path starts with it or with one of the two fixed roots), when
    the discovered prefix differs from the build-time prefix and suid
    detection reports true, the call ends in [sylog.Fatalf] and returns no
    path. *)
Theorem relocatePath_refused (Prefix : string) (w : Buildcfg.World)
        (st st1 st2 : Buildcfg.State) (original p : string) :
  Spec.inDomain Prefix original = true ->
  Buildcfg.getPrefix Prefix w st = (p, st1) ->
  p <> Prefix ->
  Buildcfg.isSuidInstall Prefix w st1 = (1%Z, st2) ->
  Buildcfg.relocatePath Prefix w st original =
  (Fatal Buildcfg.msgSuid, st2).
Proof.
  intros Hdom Hp Hne Hsuid.
  rewrite (BuildcfgFacts.relocatePath_inside Prefix w st original Hdom), Hp.
  apply String.eqb_neq in Hne. rewrite Hne, Hsuid. reflexivity.
Qed.

Lemma relocatePath_refused_witness :
  fst (Buildcfg.relocatePath "/usr" Sample.movedSuidWorld Buildcfg.initial
         "/usr/libexec/apptainer") =
  Fatal "Relocation not allowed with starter-suid".
Proof.
  rewrite (relocatePath_refused "/usr" Sample.movedSuidWorld Buildcfg.initial
             _ _ "/usr/libexec/apptainer" "/opt/app"
             eq_refl eq_refl ltac:(discriminate) eq_refl).
  reflexivity.
Defined.

(** C1 as stated fails: the discovered prefix [/opt/app] differs from the
    build-time prefix [/usr] and suid detection reports true, yet the call
    returns its argument, which lies outside the relocation domain. *)
Lemma relocatePath_outside_domain_counterexample :
  fst (Buildcfg.getPrefix "/usr" Sample.movedSuidWorld Buildcfg.initial) =
    "/opt/app" /\
  fst (Buildcfg.isSuidInstall "/usr" Sample.movedSuidWorld
         (snd (Buildcfg.getPrefix "/usr" Sample.movedSuidWorld
                 Buildcfg.initial))) = 1%Z /\
  fst (Buildcfg.relocatePath "/usr" Sample.movedSuidWorld Buildcfg.initial
         "/home/user/image.sif") = Returned "/home/user/image.sif".
Proof. repeat split. Qed.

(** C2, amended.  [relocatePath] returns [original] unchanged when the
    build-time prefix is empty or the root, when [original] starts with
    neither the build-time prefix nor [/etc/apptainer] nor [/var/apptainer],
    and when the discovered prefix equals the build-time prefix.  Otherwise,
    when suid detection is false, it takes the path of [original] relative
    to the build-time prefix (when [original] starts with it) or to the
    filesystem root (when it does not): it returns the join of the
    discovered prefix with that relative path, and is stopped by
    [sylog.Fatalf] when the relative path cannot be computed. *)
Theorem relocatePath_result (Prefix : string) (w : Buildcfg.World)
        (st : Buildcfg.State) (original : string) :
  let p := fst (Buildcfg.getPrefix Prefix w st) in
  let suid :=
    fst (Buildcfg.isSuidInstall Prefix w
           (snd (Buildcfg.getPrefix Prefix w st))) in
  let result := fst (Buildcfg.relocatePath Prefix w st original) in
  (Prefix = "" \/ Prefix = "/" -> result = Returned original) /\
  (GoStrings.HasPrefix original Prefix = false ->
   GoStrings.HasPrefix original "/etc/apptainer" = false ->
   GoStrings.HasPrefix original "/var/apptainer" = false ->
   result = Returned original) /\
  (p = Prefix -> result = Returned original) /\
  (Spec.inDomain Prefix original = true -> p <> Prefix -> suid <> 1%Z ->
   match Filepath.Rel (Spec.relativeTo Prefix original) original with
   | Some relativePath =>
     result = Returned (Filepath.Join [p; relativePath])
   | None =>
     result =
     Fatal (Filepath.relError (Spec.relativeTo Prefix original) original)
   end).
Proof.
  cbv zeta. repeat split.
  - intros H. rewrite BuildcfgFacts.relocatePath_outside; [reflexivity|].
    apply BuildcfgFacts.inDomain_false. now left.
  - intros H1 H2 H3. rewrite BuildcfgFacts.relocatePath_outside; [reflexivity|].
    apply BuildcfgFacts.inDomain_false. now right.
  - intros Hp. destruct (Spec.inDomain Prefix original) eqn:Hdom.
    + rewrite (BuildcfgFacts.relocatePath_inside Prefix w st original Hdom).
      destruct (Buildcfg.getPrefix Prefix w st) as [p st1]. cbn [fst] in Hp.
      subst p. now rewrite String.eqb_refl.
    + now rewrite BuildcfgFacts.relocatePath_outside.
  - intros Hdom Hp Hsuid.
    rewrite (BuildcfgFacts.relocatePath_inside Prefix w st original Hdom).
    destruct (Buildcfg.getPrefix Prefix w st) as [p st1]. cbn [fst snd] in *.
    apply String.eqb_neq in Hp. rewrite Hp.
    destruct (Buildcfg.isSuidInstall Prefix w st1) as [suid st2].
    cbn [fst] in Hsuid. apply Z.eqb_neq in Hsuid. rewrite Hsuid.
    destruct (Filepath.Rel _ _); reflexivity.
Qed.

Lemma relocatePath_result_witness :
  fst (Buildcfg.relocatePath "/usr" Sample.movedWorld Buildcfg.initial
         "/usr/libexec/apptainer") = Returned "/opt/app/libexec/apptainer" /\
  fst (Buildcfg.relocatePath "/usr" Sample.movedWorld Buildcfg.initial
         "/etc/apptainer/apptainer.conf") =
    Returned "/opt/app/etc/apptainer/apptainer.conf" /\
  fst (Buildcfg.relocatePath "/usr" Sample.movedWorld Buildcfg.initial
         "/home/user/image.sif") = Returned "/home/user/image.sif".
Proof.
  split; [|split].
  - apply (proj2 (proj2 (proj2 (relocatePath_result "/usr" Sample.movedWorld
             Buildcfg.initial "/usr/libexec/apptainer")))
             eq_refl ltac:(vm_compute; discriminate)
             ltac:(vm_compute; discriminate)).
  - apply (proj2 (proj2 (proj2 (relocatePath_result "/usr" Sample.movedWorld
             Buildcfg.initial "/etc/apptainer/apptainer.conf")))
             eq_refl ltac:(vm_compute; discriminate)
             ltac:(vm_compute; discriminate)).
  - apply (proj1 (proj2 (relocatePath_result "/usr" Sample.movedWorld
             Buildcfg.initial "/home/user/image.sif"))
             eq_refl eq_refl eq_refl).
Defined.

(** With the build-time prefix [../..] and the path [../..a/..], whose
    clean form is [..], the relative path cannot be computed either and the
    call is stopped. *)
Example relocatePath_dotdot_prefix_stopped :
  Filepath.Clean "../..a/.." = ".." /\
  Filepath.Rel "../.." "../..a/.." = None /\
  fst (Buildcfg.relocatePath "../.." Sample.movedWorld Buildcfg.initial
         "../..a/..") =
    Fatal "Rel: can't make ../..a/.. relative to ../..".
Proof. repeat split. Qed.

(** C2 as stated fails: the build-time prefix [..] is neither empty nor the
    root, [original] starts with it, the discovered prefix [/opt/app]
    differs from it and suid detection is false; yet no path is returned,
    because [..y] cannot be made relative to [..]. *)
Lemma relocatePath_rel_error_counterexample :
  GoStrings.HasPrefix "..y" ".." = true /\
  fst (Buildcfg.getPrefix ".." Sample.movedWorld Buildcfg.initial) =
    "/opt/app" /\
  fst (Buildcfg.isSuidInstall ".." Sample.movedWorld
         (snd (Buildcfg.getPrefix ".." Sample.movedWorld Buildcfg.initial))) =
    0%Z /\
  Filepath.Rel ".." "..y" = None /\
  fst (Buildcfg.relocatePath ".." Sample.movedWorld Buildcfg.initial "..y") =
    Fatal "Rel: can't make ..y relative to ..".
Proof. repeat split. Qed.

(** * Further properties of the generated runtime *)

Module ProcessFacts.
Import Buildcfg Process.

Section Calls.
Variable Prefix : string.

Lemma getPrefix_result (w : World) (st : State) :
  fst (getPrefix Prefix w st) = installPrefix (snd (getPrefix Prefix w st)).
Proof. reflexivity. Qed.

Lemma isSuidInstall_result (w : World) (st : State) :
  fst (isSuidInstall Prefix w st) =
  suidInstall (snd (isSuidInstall Prefix w st)).
Proof. reflexivity. Qed.

(** The state [relocatePath] leaves is the one it found, or the one left by
    the calls of [getPrefix] and [isSuidInstall] it made. *)
Lemma relocatePath_state (w : World) (st : State) (original : string) :
  snd (relocatePath Prefix w st original) = st \/
  snd (relocatePath Prefix w st original) = snd (getPrefix Prefix w st) \/
  snd (relocatePath Prefix w st original) =
    snd (isSuidInstall Prefix w (snd (getPrefix Prefix w st))).
Proof.
  destruct (Spec.inDomain Prefix original) eqn:Hdom.
  - rewrite (BuildcfgFacts.relocatePath_inside Prefix w st original Hdom).
    destruct (getPrefix Prefix w st) as [p st1]. cbn [snd].
    destruct (p =? Prefix); [right; left; reflexivity|].
    destruct (isSuidInstall Prefix w st1) as [suid st2]. cbn [snd].
    right; right.
    destruct (suid =? 1)%Z; [reflexivity|].
    destruct (Filepath.Rel _ _); reflexivity.
  - left. now rewrite BuildcfgFacts.relocatePath_outside.
Qed.

(** *** What each call keeps *)

Lemma getPrefix_keeps_prefix (w : World) (st : State) :
  prefixOnce st = true ->
  snd (getPrefix Prefix w st) = st.
Proof. intros H. now rewrite BuildcfgFacts.getPrefix_cached. Qed.

Lemma getPrefix_keeps_suid (w : World) (st : State) :
  isSuidOnce (snd (getPrefix Prefix w st)) = isSuidOnce st /\
  suidInstall (snd (getPrefix Prefix w st)) = suidInstall st.
Proof. unfold getPrefix. destruct (prefixOnce st); split; reflexivity. Qed.

Lemma isSuidInstall_keeps_prefix (w : World) (st : State) :
  prefixOnce st = true ->
  prefixOnce (snd (isSuidInstall Prefix w st)) = true /\
  installPrefix (snd (isSuidInstall Prefix w st)) = installPrefix st.
Proof.
  intros H. unfold isSuidInstall.
  destruct (isSuidOnce st); [now split|].
  rewrite (BuildcfgFacts.getPrefix_cached Prefix w st H). cbn. now split.
Qed.

Lemma isSuidInstall_keeps_suid (w : World) (st : State) :
  isSuidOnce st = true -> snd (isSuidInstall Prefix w st) = st.
Proof. intros H. now rewrite BuildcfgFacts.isSuidInstall_cached. Qed.

Lemma after_keeps_prefix (w : World) (c : call) (st : State) :
  prefixOnce st = true ->
  prefixOnce (after Prefix w c st) = true /\
  installPrefix (after Prefix w c st) = installPrefix st.
Proof.
  intros H. destruct c as [| |original]; cbn [after].
  - now rewrite getPrefix_keeps_prefix.
  - now apply isSuidInstall_keeps_prefix.
  - destruct (relocatePath_state w st original) as [-> | [-> | ->]].
    + now split.
    + now rewrite getPrefix_keeps_prefix.
    + rewrite getPrefix_keeps_prefix by assumption.
      now apply isSuidInstall_keeps_prefix.
Qed.

Lemma after_keeps_suid (w : World) (c : call) (st : State) :
  isSuidOnce st = true ->
  isSuidOnce (after Prefix w c st) = true /\
  suidInstall (after Prefix w c st) = suidInstall st.
Proof.
  intros H.
  assert (Hg : forall w', isSuidOnce (snd (getPrefix Prefix w' st)) = true)
    by (intros w'; now rewrite (proj1 (getPrefix_keeps_suid w' st))).
  destruct c as [| |original]; cbn [after].
  - destruct (getPrefix_keeps_suid w st) as [-> ->]. now split.
  - now rewrite isSuidInstall_keeps_suid.
  - destruct (relocatePath_state w st original) as [-> | [-> | ->]].
    + now split.
    + destruct (getPrefix_keeps_suid w st) as [-> ->]. now split.
    + rewrite isSuidInstall_keeps_suid by apply Hg.
      destruct (getPrefix_keeps_suid w st) as [-> ->]. now split.
Qed.

Lemma run_keeps_prefix (cs : list (World * call)) :
  forall st, prefixOnce st = true ->
    prefixOnce (run Prefix cs st) = true /\
    installPrefix (run Prefix cs st) = installPrefix st.
Proof.
  induction cs as [|[w c] cs IH]; intros st H; [now split|].
  cbn [run]. destruct (after_keeps_prefix w c st H) as [H1 H2].
  destruct (IH _ H1) as [H3 H4]. split; [assumption | congruence].
Qed.

Lemma run_keeps_suid (cs : list (World * call)) :
  forall st, isSuidOnce st = true ->
    isSuidOnce (run Prefix cs st) = true /\
    suidInstall (run Prefix cs st) = suidInstall st.
Proof.
  induction cs as [|[w c] cs IH]; intros st H; [now split|].
  cbn [run]. destruct (after_keeps_suid w c st H) as [H1 H2].
  destruct (IH _ H1) as [H3 H4]. split; [assumption | congruence].
Qed.

(** *** Consistency *)

Lemma consistent_getPrefix (w : World) (st : State) :
  consistent st -> consistent (snd (getPrefix Prefix w st)).
Proof.
  unfold consistent. intros [H1 [H2 H3]].
  destruct (getPrefix_keeps_suid w st) as [-> ->].
  repeat split; try assumption.
  intros _. apply BuildcfgFacts.getPrefix_done.
Qed.

Lemma consistent_isSuidInstall (w : World) (st : State) :
  consistent st -> consistent (snd (isSuidInstall Prefix w st)).
Proof.
  unfold consistent. intros [H1 [H2 H3]].
  unfold isSuidInstall. destruct (isSuidOnce st) eqn:E.
  - cbn [snd]. rewrite E. repeat split; assumption.
  - pose proof (BuildcfgFacts.getPrefix_done Prefix w st) as Hdone.
    destruct (getPrefix_keeps_suid w st) as [_ Hs].
    destruct (getPrefix Prefix w st) as [p st1]. cbn [snd] in *.
    cbn [suidInstall isSuidOnce prefixOnce].
    repeat split.
    + destruct (os_Stat w _); [now right|]. left. rewrite Hs. now apply H2.
    + discriminate.
    + intros _. exact Hdone.
Qed.

Lemma consistent_after (w : World) (c : call) (st : State) :
  consistent st -> consistent (after Prefix w c st).
Proof.
  intros H. destruct c as [| |original]; cbn [after].
  - now apply consistent_getPrefix.
  - now apply consistent_isSuidInstall.
  - destruct (relocatePath_state w st original) as [-> | [-> | ->]].
    + assumption.
    + now apply consistent_getPrefix.
    + now apply consistent_isSuidInstall, consistent_getPrefix.
Qed.

Lemma consistent_initial : consistent initial.
Proof. unfold consistent, initial. cbn. repeat split; auto; discriminate. Qed.

Lemma consistent_run (cs : list (World * call)) :
  forall st, consistent st -> consistent (run Prefix cs st).
Proof.
  induction cs as [|[w c] cs IH]; intros st H; [assumption|].
  cbn [run]. apply IH. now apply consistent_after.
Qed.

End Calls.
End ProcessFacts.

(** X1. Once [getPrefix] has answered, every later call of [getPrefix]
    gives the same answer, whatever calls were made in between and whatever
    the executable path has become. *)
Theorem getPrefix_answer_is_final (Prefix : string)
        (cs : list (Buildcfg.World * Process.call))
        (w0 w : Buildcfg.World) (st : Buildcfg.State) :
  fst (Buildcfg.getPrefix Prefix w
         (Process.run Prefix cs (snd (Buildcfg.getPrefix Prefix w0 st)))) =
  fst (Buildcfg.getPrefix Prefix w0 st).
Proof.
  pose proof (BuildcfgFacts.getPrefix_done Prefix w0 st) as Hdone.
  destruct (ProcessFacts.run_keeps_prefix Prefix cs _ Hdone) as [H1 H2].
  rewrite (BuildcfgFacts.getPrefix_cached Prefix w _ H1). cbn [fst].
  rewrite H2. reflexivity.
Qed.

(** X2. The first suid detection of a process answers 1 exactly when
    [os.Stat] succeeds on the discovered prefix followed by
    [/libexec/apptainer/bin/starter-suid], and 0 otherwise. *)
Theorem isSuidInstall_detects (Prefix : string)
        (cs : list (Buildcfg.World * Process.call)) (w : Buildcfg.World) :
  Buildcfg.isSuidOnce (Process.run Prefix cs Buildcfg.initial) = false ->
  fst (Buildcfg.isSuidInstall Prefix w
         (Process.run Prefix cs Buildcfg.initial)) =
  if Buildcfg.os_Stat w
       (fst (Buildcfg.getPrefix Prefix w
               (Process.run Prefix cs Buildcfg.initial)) ++
        "/libexec/apptainer/bin/starter-suid")
  then 1%Z else 0%Z.
Proof.
  intros Hfresh.
  pose proof (ProcessFacts.consistent_run Prefix cs _
                ProcessFacts.consistent_initial) as [_ [Hzero _]].
  specialize (Hzero Hfresh).
  destruct (ProcessFacts.getPrefix_keeps_suid Prefix w
              (Process.run Prefix cs Buildcfg.initial)) as [_ Hs].
  unfold Buildcfg.isSuidInstall. rewrite Hfresh.
  destruct (Buildcfg.getPrefix Prefix w _) as [p st1]. cbn [fst snd] in *.
  cbn [Buildcfg.suidInstall]. unfold Buildcfg.suidHelper.
  destruct (Buildcfg.os_Stat w _); [reflexivity | congruence].
Qed.

Lemma isSuidInstall_detects_witness :
  fst (Buildcfg.isSuidInstall "/usr" Sample.movedSuidWorld
         (Process.run "/usr"
            [(Sample.movedWorld, Process.RelocatePath "/home/user/image.sif");
             (Sample.movedWorld, Process.GetPrefix)] Buildcfg.initial)) = 1%Z.
Proof.
  rewrite (isSuidInstall_detects "/usr"
             [(Sample.movedWorld, Process.RelocatePath "/home/user/image.sif");
              (Sample.movedWorld, Process.GetPrefix)]
             Sample.movedSuidWorld eq_refl).
  reflexivity.
Defined.

(** X3. Once [isSuidInstall] has answered, every later call gives the same
    answer, whatever calls were made in between and whatever the filesystem
    has become: a starter-suid that appears later is not seen, and one that
    disappears is still counted. *)
Theorem isSuidInstall_answer_is_final (Prefix : string)
        (cs : list (Buildcfg.World * Process.call))
        (w0 w : Buildcfg.World) (st : Buildcfg.State) :
  fst (Buildcfg.isSuidInstall Prefix w
         (Process.run Prefix cs (snd (Buildcfg.isSuidInstall Prefix w0 st)))) =
  fst (Buildcfg.isSuidInstall Prefix w0 st).
Proof.
  pose proof (BuildcfgFacts.isSuidInstall_done Prefix w0 st) as Hdone.
  destruct (ProcessFacts.run_keeps_suid Prefix cs _ Hdone) as [H1 H2].
  rewrite (BuildcfgFacts.isSuidInstall_cached Prefix w _ H1). cbn [fst].
  rewrite H2. reflexivity.
Qed.

(** X4. Throughout a process, after any calls in any worlds: the suid flag
    is 0 or 1 and so is every answer of [isSuidInstall]; the flag is 0 as
    long as detection has not run; and when detection has run, prefix
    discovery has run too. *)
Theorem runtime_state_consistent (Prefix : string)
        (cs : list (Buildcfg.World * Process.call)) (w : Buildcfg.World) :
  Process.consistent (Process.run Prefix cs Buildcfg.initial) /\
  (fst (Buildcfg.isSuidInstall Prefix w
          (Process.run Prefix cs Buildcfg.initial)) = 0%Z \/
   fst (Buildcfg.isSuidInstall Prefix w
          (Process.run Prefix cs Buildcfg.initial)) = 1%Z).
Proof.
  pose proof (ProcessFacts.consistent_run Prefix cs _
                ProcessFacts.consistent_initial) as Hc.
  split; [exact Hc|].
  rewrite ProcessFacts.isSuidInstall_result.
  apply (ProcessFacts.consistent_isSuidInstall Prefix w _ Hc).
Qed.

(** X5. [relocatePath] returns a path other than its argument only when the
    argument is in the relocation domain, the discovered prefix differs from
    the build-time prefix and suid detection does not answer 1.  In
    particular a path is never rewritten on a suid installation. *)
Theorem relocatePath_rewrites_only_when (Prefix : string)
        (w : Buildcfg.World) (st : Buildcfg.State) (original r : string) :
  fst (Buildcfg.relocatePath Prefix w st original) = Returned r ->
  r <> original ->
  Spec.inDomain Prefix original = true /\
  fst (Buildcfg.getPrefix Prefix w st) <> Prefix /\
  fst (Buildcfg.isSuidInstall Prefix w
         (snd (Buildcfg.getPrefix Prefix w st))) <> 1%Z.
Proof.
  intros Hret Hne.
  destruct (Spec.inDomain Prefix original) eqn:Hdom.
  - rewrite (BuildcfgFacts.relocatePath_inside Prefix w st original Hdom)
      in Hret.
    destruct (Buildcfg.getPrefix Prefix w st) as [p st1]. cbn [fst snd] in *.
    destruct (p =? Prefix) eqn:Hp; [cbn in Hret; congruence|].
    destruct (Buildcfg.isSuidInstall Prefix w st1) as [suid st2].
    cbn [fst] in *.
    destruct (suid =? 1)%Z eqn:Hs; [discriminate|].
    split; [reflexivity|]. split.
    + now apply String.eqb_neq.
    + now apply Z.eqb_neq.
  - rewrite BuildcfgFacts.relocatePath_outside in Hret by assumption.
    cbn in Hret. congruence.
Qed.

Lemma relocatePath_rewrites_only_when_witness :
  Spec.inDomain "/usr" "/usr/libexec/apptainer" = true /\
  fst (Buildcfg.getPrefix "/usr" Sample.movedWorld Buildcfg.initial) <>
    "/usr" /\
  fst (Buildcfg.isSuidInstall "/usr" Sample.movedWorld
         (snd (Buildcfg.getPrefix "/usr" Sample.movedWorld
                 Buildcfg.initial))) <> 1%Z.
Proof.
  apply (relocatePath_rewrites_only_when "/usr" Sample.movedWorld
           Buildcfg.initial "/usr/libexec/apptainer"
           "/opt/app/libexec/apptainer").
  - reflexivity.
  - discriminate.
Defined.

(** X6. The answers of [relocatePath] do not follow the filesystem: a
    second call on the same path gives the outcome of the first and leaves
    the package variables as they were, whatever the world has become; and
    once discovery and detection have both run, no call of [relocatePath]
    depends on the world. *)
Theorem relocatePath_stable (Prefix : string) (w w' : Buildcfg.World)
        (st : Buildcfg.State) (original : string) :
  Buildcfg.relocatePath Prefix w'
    (snd (Buildcfg.relocatePath Prefix w st original)) original =
  Buildcfg.relocatePath Prefix w st original /\
  (Buildcfg.prefixOnce st = true -> Buildcfg.isSuidOnce st = true ->
   Buildcfg.relocatePath Prefix w st original =
   Buildcfg.relocatePath Prefix w' st original).
Proof.
  assert (Hcached : forall v v' s, Buildcfg.prefixOnce s = true ->
            Buildcfg.isSuidOnce s = true ->
            Buildcfg.relocatePath Prefix v s original =
            Buildcfg.relocatePath Prefix v' s original).
  { intros v v' s Hp Hs.
    destruct (Spec.inDomain Prefix original) eqn:Hdom.
    - rewrite !(BuildcfgFacts.relocatePath_inside Prefix _ s original Hdom).
      rewrite !(BuildcfgFacts.getPrefix_cached Prefix _ s Hp).
      rewrite !(BuildcfgFacts.isSuidInstall_cached Prefix _ s Hs).
      reflexivity.
    - now rewrite !BuildcfgFacts.relocatePath_outside. }
  split; [|apply Hcached].
  destruct (Spec.inDomain Prefix original) eqn:Hdom.
  - rewrite (BuildcfgFacts.relocatePath_inside Prefix w st original Hdom).
    pose proof (BuildcfgFacts.getPrefix_done Prefix w st) as Hdone.
    pose proof (ProcessFacts.getPrefix_result Prefix w st) as Hres.
    destruct (Buildcfg.getPrefix Prefix w st) as [p st1]. cbn [fst snd] in *.
    destruct (p =? Prefix) eqn:Hp.
    + cbn [snd].
      rewrite (BuildcfgFacts.relocatePath_inside Prefix w' st1 original Hdom).
      rewrite (BuildcfgFacts.getPrefix_cached Prefix w' st1 Hdone).
      rewrite <- Hres, Hp. reflexivity.
    + pose proof (BuildcfgFacts.isSuidInstall_done Prefix w st1) as Hsdone.
      pose proof (ProcessFacts.isSuidInstall_result Prefix w st1) as Hsres.
      destruct (ProcessFacts.isSuidInstall_keeps_prefix Prefix w st1 Hdone)
        as [Hp2 Hi2].
      destruct (Buildcfg.isSuidInstall Prefix w st1) as [suid st2].
      cbn [fst snd] in *.
      assert (Hsecond : Buildcfg.relocatePath Prefix w' st2 original =
                if (suid =? 1)%Z then (Fatal Buildcfg.msgSuid, st2)
                else match Filepath.Rel (Spec.relativeTo Prefix original)
                             original with
                     | None =>
                       (Fatal (Filepath.relError
                                 (Spec.relativeTo Prefix original) original),
                        st2)
                     | Some relativePath =>
                       (Returned (Filepath.Join [p; relativePath]), st2)
                     end).
      { rewrite (BuildcfgFacts.relocatePath_inside Prefix w' st2 original Hdom).
        rewrite (BuildcfgFacts.getPrefix_cached Prefix w' st2 Hp2).
        rewrite Hi2, <- Hres, Hp.
        rewrite (BuildcfgFacts.isSuidInstall_cached Prefix w' st2 Hsdone).
        rewrite <- Hsres. reflexivity. }
      destruct (suid =? 1)%Z; [exact Hsecond|].
      destruct (Filepath.Rel _ _); exact Hsecond.
  - now rewrite !BuildcfgFacts.relocatePath_outside.
Qed.

Lemma relocatePath_stable_witness :
  Buildcfg.relocatePath "/usr" Sample.movedWorld
    (snd (Buildcfg.isSuidInstall "/usr" Sample.movedSuidWorld
            Buildcfg.initial)) "/usr/bin" =
  Buildcfg.relocatePath "/usr" Sample.noExecutableWorld
    (snd (Buildcfg.isSuidInstall "/usr" Sample.movedSuidWorld
            Buildcfg.initial)) "/usr/bin".
Proof.
  apply (proj2 (relocatePath_stable "/usr" Sample.movedWorld
                  Sample.noExecutableWorld
                  (snd (Buildcfg.isSuidInstall "/usr" Sample.movedSuidWorld
                          Buildcfg.initial)) "/usr/bin")).
  - reflexivity.
  - reflexivity.
Defined.

(** ** Relative paths and joins of clean absolute paths *)
Module RebaseFacts.
Import Filepath.

Lemma length_append (a b : string) :
  String.length (a ++ b) = String.length a + String.length b.
Proof. induction a as [|x a IH]; cbn; [reflexivity | now rewrite IH]. Qed.

Lemma plain_nonempty (e : string) : Spec.plainElem e = true -> e <> "".
Proof. intros H. now apply FilepathFacts.plainElem_spec in H. Qed.

Lemma concat_app (a b : list string) :
  a <> [] -> b <> [] ->
  String.concat "/" (a ++ b) =
  String.concat "/" a ++ String "/" (String.concat "/" b).
Proof.
  intros Ha Hb. induction a as [|x a IH]; [congruence|].
  destruct a as [|y a].
  - destruct b as [|z b]; [congruence | reflexivity].
  - change ((x :: y :: a) ++ b)%list with (x :: ((y :: a) ++ b))%list.
    change ((y :: a) ++ b)%list with (y :: (a ++ b))%list.
    rewrite FilepathFacts.concat_cons2.
    change (y :: (a ++ b))%list with ((y :: a) ++ b)%list.
    rewrite IH by discriminate.
    rewrite FilepathFacts.concat_cons2. cbn [append].
    now rewrite append_assoc.
Qed.

Lemma concat_nonempty (l : list string) :
  Forall (fun e => Spec.plainElem e = true) l -> l <> [] ->
  String.concat "/" l <> "".
Proof.
  intros Hl Hne. destruct l as [|e l]; [congruence|].
  inversion Hl as [|x y He _]; subst. apply plain_nonempty in He.
  destruct l; [exact He|].
  rewrite FilepathFacts.concat_cons2. destruct e; [congruence | discriminate].
Qed.

(** A longer absolute path starts with the shorter one. *)
Lemma absPath_app (a b : list string) :
  a <> [] ->
  Spec.absPath (a ++ b) =
  Spec.absPath a ++
  match b with [] => "" | _ => String "/" (String.concat "/" b) end.
Proof.
  intros Ha. unfold Spec.absPath. destruct b as [|z b].
  - now rewrite app_nil_r, append_nil_r.
  - rewrite concat_app by (assumption || discriminate). reflexivity.
Qed.

Lemma absPath_app_neq (a b : list string) :
  Forall (fun e => Spec.plainElem e = true) b -> b <> [] ->
  Spec.absPath (a ++ b) <> Spec.absPath a.
Proof.
  intros Hb Hne Heq. pose proof (concat_nonempty b Hb Hne) as Hc.
  destruct a as [|x a].
  - cbn [app] in Heq. unfold Spec.absPath in Heq. cbn in Heq.
    inversion Heq. contradiction.
  - rewrite absPath_app in Heq by discriminate.
    apply (f_equal String.length) in Heq. rewrite length_append in Heq.
    destruct b; [congruence|]. cbn [String.length] in Heq. lia.
Qed.

Lemma cutElem_concat (e : string) (m : list string) :
  hasSep e = false ->
  cutElem (String.concat "/" (e :: m)) =
  (e, match m with [] => "" | _ => String "/" (String.concat "/" m) end).
Proof.
  intros He. destruct m as [|e2 m].
  - now apply FilepathFacts.cutElem_nosep.
  - rewrite FilepathFacts.concat_cons2.
    now apply FilepathFacts.cutElem_app_sep.
Qed.

Lemma concat_cons_length (e : string) (m : list string) :
  e <> "" ->
  String.length (String.concat "/" m) <
  String.length (String.concat "/" (e :: m)).
Proof.
  intros He. destruct m as [|e2 m].
  - cbn. destruct e; [congruence | cbn; lia].
  - rewrite FilepathFacts.concat_cons2, length_append.
    cbn [String.length]. lia.
Qed.

(** On a base that is a prefix of the target, element by element, the loop
    of [Rel] uses up the base and leaves the rest of the target. *)
Lemma relLoop_common_prefix (a rest : list string) :
  Forall (fun e => Spec.plainElem e = true) a ->
  rest <> [] ->
  relLoop (S (String.length (String.concat "/" a)))
          (String.concat "/" a) (String.concat "/" (a ++ rest)) =
  ("", "", String.concat "/" rest).
Proof.
  intros Ha Hrest. induction Ha as [|e a He Ha IH]; [reflexivity|].
  assert (Hsep : hasSep e = false)
    by now apply FilepathFacts.plainElem_spec in He.
  assert (Hne : e <> "") by now apply plain_nonempty.
  cbn [relLoop].
  assert (Hb : (String.concat "/" (e :: a) =? "") = false).
  { apply String.eqb_neq. intros H.
    pose proof (concat_cons_length e a Hne) as Hl. rewrite H in Hl.
    cbn in Hl. lia. }
  assert (Ht : (String.concat "/" ((e :: a) ++ rest) =? "") = false).
  { apply String.eqb_neq. intros H.
    pose proof (concat_cons_length e (a ++ rest) Hne) as Hl.
    cbn [app] in H. rewrite H in Hl. cbn in Hl. lia. }
  rewrite Hb, Ht. cbn [orb].
  cbn [app]. rewrite !(cutElem_concat e _ Hsep).
  rewrite String.eqb_refl. cbn [negb].
  replace (dropSep match a with
                   | [] => ""
                   | _ => String "/" (String.concat "/" a)
                   end) with (String.concat "/" a)
    by (destruct a; reflexivity).
  replace (dropSep match (a ++ rest)%list with
                   | [] => ""
                   | _ => String "/" (String.concat "/" (a ++ rest))
                   end) with (String.concat "/" (a ++ rest))
    by (destruct (a ++ rest)%list; reflexivity).
  rewrite <- IH.
  apply FilepathFacts.relLoop_fuel; [|lia].
  now apply concat_cons_length.
Qed.

Lemma relLoop_slash (fuel : nat) (b t : string) :
  relLoop (S fuel) (String "/" b) (String "/" t) = relLoop fuel b t.
Proof. reflexivity. Qed.

(** The path of [/a1/.../an/r1/.../rk] relative to [/a1/.../an] is
    [r1/.../rk], and [.] when there is nothing left. *)
Lemma Rel_absPath (a rest : list string) :
  Forall (fun e => Spec.plainElem e = true) a ->
  Forall (fun e => Spec.plainElem e = true) rest ->
  Rel (Spec.absPath a) (Spec.absPath (a ++ rest)) =
  Some match rest with [] => "." | _ => String.concat "/" rest end.
Proof.
  intros Ha Hrest. unfold Rel.
  rewrite (FilepathFacts.Clean_absPath a Ha).
  rewrite (FilepathFacts.Clean_absPath (a ++ rest))
    by (apply Forall_app; now split).
  destruct rest as [|r rest].
  - now rewrite app_nil_r, String.eqb_refl.
  - assert (Hneq : (Spec.absPath (a ++ r :: rest) =? Spec.absPath a) = false).
    { apply String.eqb_neq. apply absPath_app_neq; [assumption | discriminate]. }
    rewrite Hneq.
    replace (Spec.absPath a =? ".") with false by reflexivity.
    replace (GoStrings.HasPrefix (Spec.absPath a) "/") with true
      by (symmetry; apply GoStringsFacts.HasPrefix_spec; eexists; reflexivity).
    replace (GoStrings.HasPrefix (Spec.absPath (a ++ r :: rest)) "/") with true
      by (symmetry; apply GoStringsFacts.HasPrefix_spec; eexists; reflexivity).
    cbn [Bool.eqb negb].
    assert (Hloop : relLoop (S (String.length (Spec.absPath a)))
                      (Spec.absPath a) (Spec.absPath (a ++ r :: rest)) =
                    ("", "", String.concat "/" (r :: rest))).
    { unfold Spec.absPath. cbn [append String.length].
      rewrite relLoop_slash.
      apply relLoop_common_prefix; [assumption | discriminate]. }
    rewrite Hloop. reflexivity.
Qed.

(** *** [Clean] on a rooted list of elements *)

Lemma fold_cleanStep_filter (m : list string) :
  Forall (fun e => e = "" \/ e = "." \/ Spec.plainElem e = true) m ->
  forall out,
    fold_left (cleanStep true) m out =
    (rev (filter Spec.plainElem m) ++ out)%list.
Proof.
  induction 1 as [|e m He _ IH]; intros out; [reflexivity|].
  cbn [fold_left filter]. destruct He as [-> | [-> | He]].
  - cbn. apply IH.
  - cbn. apply IH.
  - rewrite (FilepathFacts.cleanStep_plain _ _ _ He), He, IH.
    cbn [rev]. now rewrite <- app_assoc.
Qed.

Lemma Clean_slash (s : string) :
  Clean (String "/" s) =
  "/" ++ String.concat "/"
           (rev (fold_left (cleanStep true) (splitSep s) [])).
Proof. reflexivity. Qed.

Lemma Clean_rooted_elems (m : list string) :
  Forall (fun e => e = "" \/ e = "." \/ Spec.plainElem e = true) m ->
  Clean (Spec.absPath m) = Spec.absPath (filter Spec.plainElem m).
Proof.
  intros Hm.
  assert (Hsep : Forall (fun e => hasSep e = false) m).
  { eapply Forall_impl; [|exact Hm]. intros e [-> | [-> | He]];
      try reflexivity. now apply FilepathFacts.plainElem_spec in He. }
  unfold Spec.absPath at 1. cbn [append]. rewrite Clean_slash.
  destruct m as [|x m].
  - reflexivity.
  - rewrite (FilepathFacts.splitSep_concat _ Hsep) by discriminate.
    rewrite (fold_cleanStep_filter _ Hm), app_nil_r, rev_involutive.
    reflexivity.
Qed.

Lemma filter_plain (l : list string) :
  Forall (fun e => Spec.plainElem e = true) l -> filter Spec.plainElem l = l.
Proof.
  induction 1 as [|e l He _ IH]; [reflexivity|].
  cbn [filter]. now rewrite He, IH.
Qed.

(** Joining [/d1/.../dn] with [r1/.../rk] gives [/d1/.../dn/r1/.../rk], and
    joining it with [.] gives it back. *)
Lemma Join_absPath (d rest : list string) :
  Forall (fun e => Spec.plainElem e = true) d ->
  Forall (fun e => Spec.plainElem e = true) rest ->
  Join [Spec.absPath d;
        match rest with [] => "." | _ => String.concat "/" rest end] =
  Spec.absPath (d ++ rest).
Proof.
  intros Hd Hrest.
  assert (Hall : forall l, Forall (fun e => Spec.plainElem e = true) l ->
            Forall (fun e => e = "" \/ e = "." \/ Spec.plainElem e = true) l).
  { intros l. apply Forall_impl. auto. }
  cbn [Join]. replace (Spec.absPath d =? "") with false by reflexivity.
  cbn [String.concat].
  set (rel := match rest with [] => "." | _ => String.concat "/" rest end).
  set (m := (match d with [] => [""] | _ => d end ++
             match rest with [] => ["."] | _ => rest end)%list).
  assert (Hstr : Spec.absPath d ++ "/" ++ rel = Spec.absPath m).
  { unfold m, rel. destruct d as [|x d].
    - destruct rest as [|r rest]; [reflexivity|].
      unfold Spec.absPath. cbn [app append].
      now rewrite FilepathFacts.concat_cons2.
    - rewrite absPath_app by discriminate.
      destruct rest as [|r rest]; reflexivity. }
  rewrite Hstr, Clean_rooted_elems.
  - f_equal. unfold m. rewrite filter_app.
    destruct d as [|x d]; destruct rest as [|r rest]; cbn [filter app];
      rewrite ?filter_plain by assumption;
      try (inversion Hrest; subst); try (inversion Hd; subst);
      repeat match goal with
             | H : Spec.plainElem ?e = true |- context [Spec.plainElem ?e] =>
               rewrite H
             end;
      cbn; rewrite ?app_nil_r; rewrite ?filter_plain by assumption;
      reflexivity.
  - unfold m. apply Forall_app. split.
    + destruct d; [constructor; [now left | constructor] | now apply Hall].
    + destruct rest; [constructor; [right; now left | constructor]
                     | now apply Hall].
Qed.

End RebaseFacts.

Module RelocateFacts.
Import Buildcfg.

(** A relocation that passes both gates returns the join of the discovered
    prefix with the relative path. *)
Lemma relocatePath_joined (Prefix : string) (w : World) (st : State)
      (original p rel : string) :
  Spec.inDomain Prefix original = true ->
  fst (getPrefix Prefix w st) = p ->
  p <> Prefix ->
  fst (isSuidInstall Prefix w (snd (getPrefix Prefix w st))) <> 1%Z ->
  Filepath.Rel (Spec.relativeTo Prefix original) original = Some rel ->
  fst (relocatePath Prefix w st original) =
  Returned (Filepath.Join [p; rel]).
Proof.
  intros Hdom Hp Hne Hsuid Hrel.
  rewrite (BuildcfgFacts.relocatePath_inside Prefix w st original Hdom).
  destruct (getPrefix Prefix w st) as [q st1]. cbn [fst snd] in *. subst q.
  apply String.eqb_neq in Hne. rewrite Hne.
  destruct (isSuidInstall Prefix w st1) as [suid st2]. cbn [fst] in *.
  apply Z.eqb_neq in Hsuid. now rewrite Hsuid, Hrel.
Qed.

Lemma absPath_not_root (l : list string) :
  Forall (fun e => Spec.plainElem e = true) l -> l <> [] ->
  Spec.absPath l <> "" /\ Spec.absPath l <> "/".
Proof.
  intros Hl Hne. split; [discriminate|].
  pose proof (RebaseFacts.concat_nonempty l Hl Hne) as Hc.
  unfold Spec.absPath. cbn [append]. intros H. inversion H. contradiction.
Qed.

Lemma HasPrefix_absPath_app (a b : list string) :
  a <> [] ->
  GoStrings.HasPrefix (Spec.absPath (a ++ b)) (Spec.absPath a) = true.
Proof.
  intros Ha. apply GoStringsFacts.HasPrefix_spec.
  rewrite (RebaseFacts.absPath_app a b Ha). eexists. reflexivity.
Qed.

End RelocateFacts.

(** X7. Rebasing under the prefix.  For a build-time prefix
    [/p1/.../pn] (n at least 1) and a discovered prefix [/d1/.../dm] that
    differs from it, without suid installation, [relocatePath] maps the
    path [/p1/.../pn/r1/.../rk] to [/d1/.../dm/r1/.../rk]; the build-time
    prefix itself is mapped to the discovered prefix. *)
Theorem relocatePath_rebases (lp ld rest : list string)
        (w : Buildcfg.World) (st : Buildcfg.State) :
  lp <> [] ->
  Forall (fun e => Spec.plainElem e = true) lp ->
  Forall (fun e => Spec.plainElem e = true) ld ->
  Forall (fun e => Spec.plainElem e = true) rest ->
  fst (Buildcfg.getPrefix (Spec.absPath lp) w st) = Spec.absPath ld ->
  Spec.absPath ld <> Spec.absPath lp ->
  fst (Buildcfg.isSuidInstall (Spec.absPath lp) w
         (snd (Buildcfg.getPrefix (Spec.absPath lp) w st))) <> 1%Z ->
  fst (Buildcfg.relocatePath (Spec.absPath lp) w st
         (Spec.absPath (lp ++ rest))) =
  Returned (Spec.absPath (ld ++ rest)).
Proof.
  intros Hne Hlp Hld Hrest Hp Hdiff Hsuid.
  destruct (RelocateFacts.absPath_not_root lp Hlp Hne) as [H1 H2].
  pose proof (RelocateFacts.HasPrefix_absPath_app lp rest Hne) as Hpre.
  assert (Hdom : Spec.inDomain (Spec.absPath lp)
                   (Spec.absPath (lp ++ rest)) = true).
  { unfold Spec.inDomain. apply String.eqb_neq in H1, H2.
    now rewrite H1, H2, Hpre. }
  assert (Hto : Spec.relativeTo (Spec.absPath lp)
                  (Spec.absPath (lp ++ rest)) = Spec.absPath lp)
    by (unfold Spec.relativeTo; now rewrite Hpre).
  rewrite (RelocateFacts.relocatePath_joined _ w st _ (Spec.absPath ld)
             (match rest with [] => "." | _ => String.concat "/" rest end)
             Hdom Hp Hdiff Hsuid).
  - now rewrite RebaseFacts.Join_absPath.
  - rewrite Hto. now apply RebaseFacts.Rel_absPath.
Qed.

Lemma relocatePath_rebases_witness :
  fst (Buildcfg.relocatePath "/usr" Sample.movedWorld Buildcfg.initial
         "/usr/libexec/apptainer/bin") =
  Returned "/opt/app/libexec/apptainer/bin".
Proof.
  apply (relocatePath_rebases ["usr"] ["opt"; "app"]
           ["libexec"; "apptainer"; "bin"] Sample.movedWorld Buildcfg.initial).
  - discriminate.
  - repeat constructor.
  - repeat constructor.
  - repeat constructor.
  - reflexivity.
  - discriminate.
  - vm_compute. discriminate.
Defined.

(** X8. Nesting the two fixed roots under the discovered prefix.  A clean
    absolute path [/o1/.../ok] that starts with [/etc/apptainer] or
    [/var/apptainer] and not with the build-time prefix is mapped, when the
    discovered prefix [/d1/.../dm] differs from the build-time prefix and
    there is no suid installation, to [/d1/.../dm/o1/.../ok]. *)
Theorem relocatePath_nests_root_paths (Prefix : string) (lo ld : list string)
        (w : Buildcfg.World) (st : Buildcfg.State) :
  Prefix <> "" -> Prefix <> "/" ->
  Forall (fun e => Spec.plainElem e = true) lo ->
  Forall (fun e => Spec.plainElem e = true) ld ->
  GoStrings.HasPrefix (Spec.absPath lo) Prefix = false ->
  GoStrings.HasPrefix (Spec.absPath lo) "/etc/apptainer" = true \/
  GoStrings.HasPrefix (Spec.absPath lo) "/var/apptainer" = true ->
  fst (Buildcfg.getPrefix Prefix w st) = Spec.absPath ld ->
  Spec.absPath ld <> Prefix ->
  fst (Buildcfg.isSuidInstall Prefix w
         (snd (Buildcfg.getPrefix Prefix w st))) <> 1%Z ->
  fst (Buildcfg.relocatePath Prefix w st (Spec.absPath lo)) =
  Returned (Spec.absPath (ld ++ lo)).
Proof.
  intros H1 H2 Hlo Hld Hnot Hroot Hp Hdiff Hsuid.
  assert (Hne : lo <> []).
  { intros ->. destruct Hroot as [H | H]; discriminate H. }
  assert (Hdom : Spec.inDomain Prefix (Spec.absPath lo) = true).
  { unfold Spec.inDomain. apply String.eqb_neq in H1, H2.
    rewrite H1, H2, Hnot. cbn [orb negb andb].
    destruct Hroot as [-> | ->]; [reflexivity | apply orb_true_r]. }
  assert (Hto : Spec.relativeTo Prefix (Spec.absPath lo) = Spec.absPath [])
    by (unfold Spec.relativeTo; now rewrite Hnot).
  rewrite (RelocateFacts.relocatePath_joined _ w st _ (Spec.absPath ld)
             (match lo with [] => "." | _ => String.concat "/" lo end)
             Hdom Hp Hdiff Hsuid).
  - now rewrite RebaseFacts.Join_absPath.
  - rewrite Hto. apply (RebaseFacts.Rel_absPath [] lo); [constructor | assumption].
Qed.

Lemma relocatePath_nests_root_paths_witness :
  fst (Buildcfg.relocatePath "/usr" Sample.movedWorld Buildcfg.initial
         "/var/apptainer/mnt/session") =
  Returned "/opt/app/var/apptainer/mnt/session".
Proof.
  apply (relocatePath_nests_root_paths "/usr"
           ["var"; "apptainer"; "mnt"; "session"] ["opt"; "app"]
           Sample.movedWorld Buildcfg.initial).
  - discriminate.
  - discriminate.
  - repeat constructor.
  - repeat constructor.
  - reflexivity.
  - right. reflexivity.
  - reflexivity.
  - discriminate.
  - vm_compute. discriminate.
Defined.

(** X9. Whatever the argument looks like, a path that [relocatePath]
    rewrites is in clean form when the discovered prefix is absolute: it is
    absolute and has no empty, [.] or [..] element. *)
Theorem relocatePath_result_clean (Prefix : string) (w : Buildcfg.World)
        (st : Buildcfg.State) (original r : string) :
  fst (Buildcfg.relocatePath Prefix w st original) = Returned r ->
  r <> original ->
  GoStrings.HasPrefix (fst (Buildcfg.getPrefix Prefix w st)) "/" = true ->
  exists l, Forall (fun e => Spec.plainElem e = true) l /\ r = Spec.absPath l.
Proof.
  intros Hret Hne Habs.
  destruct (Spec.inDomain Prefix original) eqn:Hdom.
  - rewrite (BuildcfgFacts.relocatePath_inside Prefix w st original Hdom)
      in Hret.
    destruct (Buildcfg.getPrefix Prefix w st) as [p st1]. cbn [fst snd] in *.
    destruct (p =? Prefix); [cbn in Hret; congruence|].
    destruct (Buildcfg.isSuidInstall Prefix w st1) as [suid st2].
    destruct (suid =? 1)%Z; [discriminate|].
    destruct (Filepath.Rel _ _) as [rel|]; [|discriminate].
    cbn [fst] in Hret. inversion Hret as [Hr].
    apply GoStringsFacts.HasPrefix_spec in Habs. destruct Habs as [q ->].
    cbn [append Filepath.Join String.eqb String.concat].
    apply FilepathFacts.Clean_rooted.
    apply GoStringsFacts.HasPrefix_spec. eexists. reflexivity.
  - rewrite BuildcfgFacts.relocatePath_outside in Hret by assumption.
    cbn in Hret. congruence.
Qed.

Lemma relocatePath_result_clean_witness :
  exists l, Forall (fun e => Spec.plainElem e = true) l /\
            "/opt/etc/passwd" = Spec.absPath l.
Proof.
  apply (relocatePath_result_clean "/usr" Sample.movedWorld Buildcfg.initial
           "/usr/./share/../../etc//passwd" "/opt/etc/passwd").
  - reflexivity.
  - discriminate.
  - reflexivity.
Defined.

(** X10. Running in place.  When the program runs from the location it was
    built for ([PREFIX/bin/apptainer], or the starter under
    [PREFIX/libexec/apptainer/bin]), [relocatePath] returns every path
    unchanged and is never stopped, also on a suid installation. *)
Theorem relocatePath_in_place (l : list string) (w : Buildcfg.World)
        (st : Buildcfg.State) (original : string) :
  Forall (fun e => Spec.plainElem e = true) l ->
  Buildcfg.prefixOnce st = false ->
  Buildcfg.os_Executable w = Some (Spec.absPath (l ++ ["bin"; "apptainer"])) \/
  (exists helper,
     (helper = "starter" \/ helper = "starter-suid") /\
     Buildcfg.os_Executable w =
       Some (Spec.absPath (l ++ ["libexec"; "apptainer"; "bin"; helper]))) ->
  fst (Buildcfg.relocatePath (Spec.absPath l) w st original) =
  Returned original.
Proof.
  intros Hl Hfresh Hexe.
  assert (Hp : fst (Buildcfg.getPrefix (Spec.absPath l) w st) =
               Spec.absPath l).
  { rewrite (BuildcfgFacts.getPrefix_first _ w st Hfresh).
    destruct Hexe as [H | [helper [Hh H]]].
    - now apply BuildcfgFacts.discoverPrefix_frontend_layout.
    - now apply (BuildcfgFacts.discoverPrefix_helper_layout _ w l helper). }
  destruct (Spec.inDomain (Spec.absPath l) original) eqn:Hdom.
  - rewrite (BuildcfgFacts.relocatePath_inside _ w st original Hdom).
    destruct (Buildcfg.getPrefix (Spec.absPath l) w st) as [p st1].
    cbn [fst] in Hp. subst p. now rewrite String.eqb_refl.
  - now rewrite BuildcfgFacts.relocatePath_outside.
Qed.

Lemma relocatePath_in_place_witness :
  fst (Buildcfg.relocatePath "/opt/app" Sample.movedSuidWorld
         Buildcfg.initial "/opt/app/libexec/apptainer") =
  Returned "/opt/app/libexec/apptainer".
Proof.
  apply (relocatePath_in_place ["opt"; "app"] Sample.movedSuidWorld
           Buildcfg.initial "/opt/app/libexec/apptainer").
  - repeat constructor.
  - reflexivity.
  - left. reflexivity.
Defined.

(** * Further properties of the generator *)

Module LinesFacts.
Import GoStrings Lines.

Lemma tokenByte_no_space (c : ascii) (r : string) :
  tokenByte c = true -> spaceWidth (String c r) = 0.
Proof.
  unfold tokenByte. rewrite andb_true_iff, !negb_true_iff, !orb_false_iff.
  intros [Hs [[[H1 H2] H3] H4]].
  unfold spaceWidth. rewrite Hs, H1, H2, H3, H4.
  destruct r as [|d [|e r]]; reflexivity.
Qed.

(** A run of token bytes is added to the field being collected. *)
Lemma fieldsFrom_token (tok : string) :
  allBytes tokenByte tok = true ->
  forall rest cur,
    fieldsFrom (tok ++ rest) 0 cur = fieldsFrom rest 0 (cur ++ tok).
Proof.
  induction tok as [|c tok IH]; intros Htok rest cur.
  - cbn. now rewrite append_nil_r.
  - cbn [allBytes] in Htok. apply andb_true_iff in Htok.
    destruct Htok as [Hc Htok].
    cbn [append fieldsFrom]. rewrite (tokenByte_no_space c _ Hc).
    rewrite (IH Htok), append_assoc. reflexivity.
Qed.

(** A space ends the field being collected. *)
Lemma fieldsFrom_space (rest cur : string) :
  fieldsFrom (String " " rest) 0 cur = (flush cur ++ fieldsFrom rest 0 "")%list.
Proof. reflexivity. Qed.

Lemma isToken_spec (w : string) :
  isToken w = true -> w <> "" /\ allBytes tokenByte w = true.
Proof.
  unfold isToken. rewrite andb_true_iff, negb_true_iff, String.eqb_neq. tauto.
Qed.

Lemma flush_token (w : string) : w <> "" -> flush w = [w].
Proof. destruct w; [congruence | reflexivity]. Qed.

Lemma Fields_joinTokens (ws : list string) :
  Forall (fun w => isToken w = true) ws -> Fields (joinTokens ws) = ws.
Proof.
  unfold Fields, joinTokens.
  induction 1 as [|w ws Hw Hws IH]; [reflexivity|].
  apply isToken_spec in Hw. destruct Hw as [Hne Hbytes].
  destruct ws as [|w2 ws].
  - cbn [String.concat]. rewrite <- (append_nil_r w) at 1.
    rewrite (fieldsFrom_token w Hbytes). cbn [append fieldsFrom].
    now apply flush_token.
  - change (String.concat " " (w :: w2 :: ws))
      with (w ++ String " " (String.concat " " (w2 :: ws))).
    rewrite (fieldsFrom_token w Hbytes), fieldsFrom_space. cbn [append].
    rewrite (flush_token w Hne), IH. reflexivity.
Qed.

(** Appending or prepending a byte that the needle does not contain does
    not create an occurrence of the needle. *)
Lemma HasPrefix_snoc (c : ascii) (t : string) :
  forall sub,
    allBytes (fun x => negb (Ascii.eqb x c)) sub = true ->
    HasPrefix (t ++ String c "") sub = HasPrefix t sub.
Proof.
  unfold HasPrefix.
  induction t as [|b t IH]; intros sub Hsub.
  - destruct sub as [|a sub]; [reflexivity|].
    cbn [allBytes] in Hsub. apply andb_true_iff in Hsub.
    destruct Hsub as [Ha _]. apply negb_true_iff, Ascii.eqb_neq in Ha.
    cbn. destruct (ascii_dec a c); [contradiction | reflexivity].
  - destruct sub as [|a sub]; [reflexivity|].
    cbn [allBytes] in Hsub. apply andb_true_iff in Hsub.
    destruct Hsub as [_ Hsub].
    cbn [append String.prefix]. destruct (ascii_dec a b); [|reflexivity].
    now apply IH.
Qed.

Lemma Contains_snoc (c : ascii) (sub : string) :
  allBytes (fun x => negb (Ascii.eqb x c)) sub = true ->
  forall t, Contains (t ++ String c "") sub = Contains t sub.
Proof.
  intros Hsub. induction t as [|b t IH].
  - cbn [append Contains].
    change (String c "") with ("" ++ String c "").
    rewrite (HasPrefix_snoc c "" sub Hsub).
    destruct (HasPrefix "" sub); reflexivity.
  - cbn [append Contains].
    change (String b (t ++ String c "")) with (String b t ++ String c "").
    now rewrite (HasPrefix_snoc c (String b t) sub Hsub), IH.
Qed.

End LinesFacts.

Module GenerateFacts.
Import Confgen.

(** The declarations of a rendering are the lines of [WriteLine], entry by
    entry. *)
Lemma renderDefines_map (header : list Define) :
  forall decls,
    renderDefines header = Some decls ->
    map Some decls = map WriteLine header.
Proof.
  induction header as [|d header IH]; intros decls H.
  - inversion H. reflexivity.
  - cbn [renderDefines] in H.
    destruct (WriteLine d) as [l|] eqn:Hd; [|discriminate].
    destruct (renderDefines header) as [ls|]; [|discriminate].
    inversion H. cbn [map]. now rewrite Hd, (IH ls eq_refl).
Qed.

Lemma substring_prefix (p q : string) :
  String.substring 0 (String.length p) (p ++ q) = p.
Proof.
  induction p as [|c p IH]; [destruct q; reflexivity|].
  cbn. now rewrite IH.
Qed.

(** Dropping the first and the last byte of [a p b] leaves [p]. *)
Lemma strip_delimiters (a b : ascii) (p : string) :
  String.substring 1
    (String.length (String a (p ++ String b "")) - 2)
    (String a (p ++ String b "")) = p.
Proof.
  cbn [String.length]. rewrite RebaseFacts.length_append.
  cbn [String.length String.substring].
  replace (S (String.length p + 1) - 2) with (String.length p) by lia.
  apply substring_prefix.
Qed.

Lemma entries_app (ls1 ls2 : list string) :
  Spec.entries (ls1 ++ ls2) = (Spec.entries ls1 ++ Spec.entries ls2)%list.
Proof. unfold Spec.entries. now rewrite map_app, filter_app. Qed.

Lemma no_malformed (es : list Define) :
  (forall e, In e es -> name e = "PREFIX" -> List.length (Words e) = 3) ->
  existsb Spec.malformedPrefix es = false.
Proof.
  intros H. destruct (existsb Spec.malformedPrefix es) eqn:E; [|reflexivity].
  apply ExtractFacts.malformed_iff in E. destruct E as [d [Hin [Hn Hl]]].
  elim Hl. now apply H.
Qed.

End GenerateFacts.

(** X11. Parsing a line gives back its tokens: for tokens that are not
    empty and hold no white-space byte and no first byte of a multi-byte
    white-space rune, [parseLine] of the tokens joined by single spaces has
    exactly these tokens as words. *)
Theorem parseLine_joinTokens (ws : list string) :
  Forall (fun w => Lines.isToken w = true) ws ->
  Confgen.parseLine (Lines.joinTokens ws) = {| Confgen.Words := ws |}.
Proof.
  intros H. unfold Confgen.parseLine. now rewrite LinesFacts.Fields_joinTokens.
Qed.

Lemma parseLine_joinTokens_witness :
  Confgen.parseLine "#define SESSIONDIR LOCALSTATEDIR /apptainer/mnt/session" =
  {| Confgen.Words :=
       ["#define"; "SESSIONDIR"; "LOCALSTATEDIR"; "/apptainer/mnt/session"] |}.
Proof.
  apply (parseLine_joinTokens
           ["#define"; "SESSIONDIR"; "LOCALSTATEDIR"; "/apptainer/mnt/session"]).
  repeat constructor.
Defined.

(** X12. Lines that are not recognized have no influence: removing such a
    line from the input, wherever it stands, changes neither the entries nor
    the prefix nor the fatal outcome of the extraction. *)
Theorem extract_ignores_unrecognized (ls1 ls2 : list string) (l : string)
        (env : option string) :
  Confgen.recognized (Confgen.parseLine l) = false ->
  Confgen.extract (ls1 ++ l :: ls2) env = Confgen.extract (ls1 ++ ls2) env.
Proof.
  intros H. rewrite !ExtractFacts.extract_spec.
  rewrite !GenerateFacts.entries_app, ExtractFacts.entries_cons, H.
  reflexivity.
Qed.

Lemma extract_ignores_unrecognized_witness :
  Confgen.extract ["#define PREFIX ab"; "#define PREFIX"; "#define X 1"] None =
  Confgen.extract ["#define PREFIX ab"; "#define X 1"] None.
Proof.
  apply (extract_ignores_unrecognized ["#define PREFIX ab"] ["#define X 1"]
           "#define PREFIX" None).
  reflexivity.
Defined.

(** X13. With several [PREFIX] entries, all of three tokens, the extraction
    succeeds, keeps all of them, and takes the prefix from the last one. *)
Theorem extract_last_prefix (lines : list string) (env : option string)
        (es1 es2 : list Confgen.Define) (d : Confgen.Define) :
  Spec.entries lines = (es1 ++ d :: es2)%list ->
  (forall e, In e (Spec.entries lines) -> Confgen.name e = "PREFIX" ->
             List.length (Confgen.Words e) = 3) ->
  Confgen.name d = "PREFIX" ->
  (forall e, In e es2 -> Confgen.name e <> "PREFIX") ->
  Confgen.extract lines env =
  Returned ((Spec.entries lines ++ Spec.synthetic env)%list, Confgen.value d).
Proof.
  intros Hes Hwell Hd Hlast. rewrite ExtractFacts.extract_spec.
  rewrite (GenerateFacts.no_malformed _ Hwell).
  assert (Htok : Spec.prefixToken (Spec.entries lines) "" = Confgen.value d).
  { rewrite Hes. unfold Spec.prefixToken. rewrite fold_left_app.
    cbn [fold_left]. unfold Spec.isPrefixEntry at 2.
    rewrite Hd, String.eqb_refl.
    apply ExtractFacts.prefixToken_none.
    destruct (existsb Spec.isPrefixEntry es2) eqn:E; [|reflexivity].
    apply ExtractFacts.isPrefix_iff in E. destruct E as [e [Hin Hn]].
    now elim (Hlast e Hin). }
  rewrite Htok.
  assert (Hne : Confgen.value d <> "").
  { apply (ExtractFacts.entries_value_nonempty lines).
    rewrite Hes. apply in_or_app. right. now left. }
  apply String.eqb_neq in Hne. now rewrite Hne.
Qed.

Lemma extract_last_prefix_witness :
  Confgen.extract ["#define PREFIX /a"; "#define X 1"; "#define PREFIX /b";
                   "#define Y 2"] None =
  Returned ([{| Confgen.Words := ["#define"; "PREFIX"; "/a"] |};
             {| Confgen.Words := ["#define"; "X"; "1"] |};
             {| Confgen.Words := ["#define"; "PREFIX"; "/b"] |};
             {| Confgen.Words := ["#define"; "Y"; "2"] |}], "/b").
Proof.
  apply (extract_last_prefix
           ["#define PREFIX /a"; "#define X 1"; "#define PREFIX /b";
            "#define Y 2"] None
           [{| Confgen.Words := ["#define"; "PREFIX"; "/a"] |};
            {| Confgen.Words := ["#define"; "X"; "1"] |}]
           [{| Confgen.Words := ["#define"; "Y"; "2"] |}]
           {| Confgen.Words := ["#define"; "PREFIX"; "/b"] |}).
  - reflexivity.
  - intros e He Hn. vm_compute in He.
    repeat (destruct He as [<-|He]; [first [reflexivity | discriminate Hn]|]).
    destruct He.
  - reflexivity.
  - intros e [<-|[]]. discriminate.
Defined.

(** X14. A run that succeeds writes one declaration per entry, in input
    order: when the file operations succeed, every [PREFIX] entry has three
    tokens, there is one, and the prefix token has at least two bytes,
    [main] returns with status 0, prints nothing, and the declarations of
    [config.go] are the lines [WriteLine] gives for the entries of the
    input, followed by that of the [GO_BUILD_TAGS] override if any. *)
Theorem main_generates (w : Confgen.World) (path : string)
        (lines : list string) :
  Confgen.os_Create w = None ->
  nth_error (Confgen.os_Args w) 1 = Some path ->
  Confgen.inFile w path = inr lines ->
  Confgen.outFile_Write w = None ->
  (forall e, In e (Spec.entries lines) -> Confgen.name e = "PREFIX" ->
             List.length (Confgen.Words e) = 3) ->
  (exists e, In e (Spec.entries lines) /\ Confgen.name e = "PREFIX") ->
  2 <= String.length (Spec.prefixToken (Spec.entries lines) "") ->
  exists decls,
    Confgen.main w =
    {| Confgen.status := 0%Z; Confgen.printed := [];
       Confgen.config_go :=
         Some {| Confgen.gPrefix :=
                   String.substring 1
                     (String.length (Spec.prefixToken (Spec.entries lines) "")
                      - 2)
                     (Spec.prefixToken (Spec.entries lines) "");
                 Confgen.gDecls := decls |} |} /\
    map Some decls =
    map Confgen.WriteLine
        (Spec.entries lines ++ Spec.synthetic (Confgen.GO_BUILD_TAGS w)).
Proof.
  intros Hc Ha Hr Hw Hwell Hsome Hlen.
  assert (He : Confgen.extract lines (Confgen.GO_BUILD_TAGS w) =
               Returned ((Spec.entries lines ++
                          Spec.synthetic (Confgen.GO_BUILD_TAGS w))%list,
                         Spec.prefixToken (Spec.entries lines) "")).
  { rewrite ExtractFacts.extract_spec.
    rewrite (GenerateFacts.no_malformed _ Hwell).
    destruct (_ =? "") eqn:E; [|reflexivity].
    apply String.eqb_eq in E. rewrite E in Hlen. cbn in Hlen. lia. }
  destruct (MainFacts.Execute_extracted w lines _ _
              (String.substring 1
                 (String.length (Spec.prefixToken (Spec.entries lines) "") - 2)
                 (Spec.prefixToken (Spec.entries lines) "")) He)
    as [decls [Hd Hx]].
  exists decls. split; [|now apply GenerateFacts.renderDefines_map].
  rewrite (MainFacts.main_after_read w path lines Hc Ha Hr), He.
  rewrite (ExtractFacts.goSlice_strip _ Hlen), Hx, Hw. reflexivity.
Qed.

Lemma main_generates_witness :
  exists decls,
    Confgen.main (Sample.genWorld Sample.config_h (Some "seccomp")) =
    {| Confgen.status := 0%Z; Confgen.printed := [];
       Confgen.config_go :=
         Some {| Confgen.gPrefix := "/usr"; Confgen.gDecls := decls |} |} /\
    map Some decls =
    map Confgen.WriteLine
        (Spec.entries Sample.config_h ++ [Confgen.buildTagsDefine "seccomp"]).
Proof.
  apply (main_generates (Sample.genWorld Sample.config_h (Some "seccomp"))
           "config.h" Sample.config_h eq_refl eq_refl eq_refl eq_refl).
  - intros e He Hn. vm_compute in He.
    repeat (destruct He as [<-|He]; [first [reflexivity | discriminate Hn]|]).
    destruct He.
  - exists (Confgen.parseLine ("#define PREFIX " ++ Sample.quoted "/usr")).
    split; [vm_compute; left; reflexivity | reflexivity].
  - vm_compute. lia.
Defined.

(** X15. The prefix written into [config.go] is the prefix token without
    its first and its last byte, whatever these bytes are: a token [a p b]
    gives [p], so a quoted token gives the text between the quotes, and a
    token without quotes loses its first and last letter. *)
Theorem main_strips_delimiters (w : Confgen.World) (path : string)
        (lines : list string) (header : list Confgen.Define)
        (a b : ascii) (p : string) :
  Confgen.os_Create w = None ->
  nth_error (Confgen.os_Args w) 1 = Some path ->
  Confgen.inFile w path = inr lines ->
  Confgen.outFile_Write w = None ->
  Confgen.extract lines (Confgen.GO_BUILD_TAGS w) =
    Returned (header, String a (p ++ String b "")) ->
  Confgen.config_go (Confgen.main w) <> None /\
  option_map Confgen.gPrefix (Confgen.config_go (Confgen.main w)) = Some p.
Proof.
  intros Hc Ha Hr Hw He.
  assert (Hlen : 2 <= String.length (String a (p ++ String b ""))).
  { cbn [String.length]. rewrite RebaseFacts.length_append. cbn. lia. }
  destruct (MainFacts.Execute_extracted w lines _ _
              (String.substring 1
                 (String.length (String a (p ++ String b "")) - 2)
                 (String a (p ++ String b ""))) He)
    as [decls [Hd Hx]].
  rewrite (MainFacts.main_after_read w path lines Hc Ha Hr), He.
  rewrite (ExtractFacts.goSlice_strip _ Hlen), Hx, Hw.
  cbn [Confgen.config_go option_map Confgen.gPrefix].
  split; [discriminate|]. now rewrite GenerateFacts.strip_delimiters.
Qed.

Lemma main_strips_delimiters_witness :
  option_map Confgen.gPrefix
    (Confgen.config_go
       (Confgen.main (Sample.genWorld ["#define PREFIX /usr"] None))) =
  Some "us".
Proof.
  apply (main_strips_delimiters
           (Sample.genWorld ["#define PREFIX /usr"] None) "config.h"
           ["#define PREFIX /usr"]
           [{| Confgen.Words := ["#define"; "PREFIX"; "/usr"] |}]
           "/"%char "r"%char "us"
           eq_refl eq_refl eq_refl eq_refl eq_refl).
Defined.

(** X16. The [GO_BUILD_TAGS] override is one entry whatever it contains
    (white space in it does not split it), and it is declared as the raw
    string of the override: a [const], or a [var] when the override
    contains [APPTAINER_CONFDIR]. *)
Theorem buildTags_declaration (tags : string) :
  Confgen.recognized (Confgen.buildTagsDefine tags) = true /\
  List.length (Confgen.Words (Confgen.buildTagsDefine tags)) = 3 /\
  Confgen.WriteLine (Confgen.buildTagsDefine tags) =
  Some ((if GoStrings.Contains tags "APPTAINER_CONFDIR" then "var" else "const")
        ++ " GO_BUILD_TAGS = " ++ bquote ++ tags ++ bquote).
Proof.
  split; [reflexivity|]. split; [reflexivity|].
  unfold Confgen.WriteLine, Confgen.buildTagsDefine. cbn [Confgen.Words].
  replace (Confgen.isRelocatable "GO_BUILD_TAGS") with false by reflexivity.
  replace ("GO_BUILD_TAGS" =? "APPTAINER_SUID_INSTALL") with false
    by reflexivity.
  unfold Confgen.valueExpr. cbn [fold_left].
  assert (Hc : GoStrings.Contains (bquote ++ tags ++ bquote)
                 "APPTAINER_CONFDIR" =
               GoStrings.Contains tags "APPTAINER_CONFDIR").
  { unfold bquote. cbn [append]. cbn [GoStrings.Contains].
    replace (GoStrings.HasPrefix
               (String (ascii_of_nat 96) (tags ++ String (ascii_of_nat 96) ""))
               "APPTAINER_CONFDIR") with false by reflexivity.
    cbn [orb].
    now apply LinesFacts.Contains_snoc. }
  rewrite Hc.
  destruct (GoStrings.Contains tags "APPTAINER_CONFDIR"); reflexivity.
Qed.

(** X17. What the extractor hands on is well formed: every entry has the
    marker [#define], a name that is not empty and at least one value token,
    the first of which is not empty; the prefix token is not empty and is
    the value token of an entry named [PREFIX]. *)
Theorem extract_wellformed (lines : list string) (env : option string)
        (header : list Confgen.Define) (prefix : string) :
  Confgen.extract lines env = Returned (header, prefix) ->
  (forall d, In d header ->
     exists more,
       Confgen.Words d =
         "#define" :: Confgen.name d :: Confgen.value d :: more /\
       Confgen.name d <> "" /\ Confgen.value d <> "") /\
  prefix <> "" /\
  exists d, In d header /\ Confgen.name d = "PREFIX" /\
            Confgen.value d = prefix.
Proof.
  intros He.
  pose proof (ExtractFacts.extract_recognized lines env header prefix He)
    as Hrec.
  rewrite ExtractFacts.extract_spec in He.
  destruct (existsb _ _); [discriminate|].
  destruct (_ =? "") eqn:Hp; [discriminate|].
  inversion He as [[Hh Hpre]]. clear He. apply String.eqb_neq in Hp.
  subst header prefix.
  split; [|split; [exact Hp|]].
  - intros d Hd. rewrite Forall_forall in Hrec.
    destruct (ConfgenFacts.recognized_words d (Hrec d Hd)) as [more [Hw _]].
    exists more. split; [exact Hw|].
    apply in_app_or in Hd. destruct Hd as [Hd | Hd].
    + split; [|now apply (ExtractFacts.entries_value_nonempty lines)].
      apply ExtractFacts.entries_In in Hd.
      destruct Hd as [Hr [l [_ ->]]].
      apply (GoStringsFacts.Fields_nonempty l).
      unfold Confgen.recognized in Hr. apply andb_true_iff in Hr.
      destruct Hr as [Hlen _]. apply Nat.ltb_lt in Hlen.
      unfold Confgen.name, Confgen.parseLine in *. cbn [Confgen.Words] in *.
      apply nth_In. lia.
    + destruct env as [tags|]; [|destruct Hd].
      cbn [Spec.synthetic] in Hd.
      destruct (tags =? ""); [destruct Hd|].
      destruct Hd as [<-|[]]. split; discriminate.
  - assert (Hex : forall es dflt,
              Spec.prefixToken es dflt <> dflt ->
              exists d, In d es /\ Confgen.name d = "PREFIX" /\
                        Confgen.value d = Spec.prefixToken es dflt).
    { intros es. induction es as [|e es IH] using rev_ind; intros dflt Hne.
      - now elim Hne.
      - unfold Spec.prefixToken in *. rewrite fold_left_app in *.
        cbn [fold_left] in *.
        destruct (Spec.isPrefixEntry e) eqn:Ee.
        + exists e. split; [apply in_or_app; right; now left|].
          split; [now apply String.eqb_eq | reflexivity].
        + destruct (IH dflt Hne) as [d [Hin [Hn Hv]]].
          exists d. split; [apply in_or_app; now left | now split]. }
    destruct (Hex (Spec.entries lines) "" Hp) as [d [Hin [Hn Hv]]].
    exists d. split; [apply in_or_app; now left | now split].
Qed.

Lemma extract_wellformed_witness :
  Sample.quoted "/usr" <> "" /\
  exists d, In d (Spec.entries Sample.config_h) /\
            Confgen.name d = "PREFIX" /\
            Confgen.value d = Sample.quoted "/usr".
Proof.
  apply (extract_wellformed Sample.config_h None
           (Spec.entries Sample.config_h) (Sample.quoted "/usr") eq_refl).
Defined.
